(** * Clinic front-desk dashboard: queue widget and patient lookup

    A shallow embedding of the two components of the dashboard,
    [QueueWidget.tsx] and [PatientLookup.tsx], and the properties of the
    queue-position arithmetic and of the patient search that follow from
    that code.

    Conventions.
    - A JavaScript [number] holding a token or a counter is an integer of
      [Z]; the code only subtracts and compares such numbers, which is
      exact on the safe-integer range; values that are not numbers are
      left out.  The one division of the widget (the
      width of the progress bar) is taken over the rationals [Q]: the
      clamps around it make its bounds independent of rounding.
    - A JavaScript string is the list of its UTF-16 code units ([N]).
    - An optional property ([userSTN?], [visits?], [currentVisit?]) is an
      [option]; [undefined] and [null] are both [None]. *)

From Stdlib Require Import ZArith NArith QArith Qminmax Bool List String Ascii Lia.
From Stdlib Require Import Sorted.
Import ListNotations.

(** ** The queue widget *)

Module QueueWidget.

Local Open Scope Z_scope.

(** The counters delivered by the [useQueue] hook. *)
Record QueueStatus : Type := mkQueueStatus {
  now_serving : Z;
  total_waiting : Z
}.

Record QueueWidgetProps : Type := mkProps {
  userSTN : option Z;
  department : option string
}.

(** Truthiness of a numeric value: every number but zero. *)
Definition truthy (n : Z) : bool := negb (n =? 0).

(** [userSTN && queueStatus.now_serving
       ? Math.max(0, userSTN - queueStatus.now_serving) : 0] *)
Definition userPosition (stn : option Z) (qs : QueueStatus) : Z :=
  match stn with
  | Some t =>
      if truthy t && truthy (now_serving qs)
      then Z.max 0 (t - now_serving qs)
      else 0
  | None => 0
  end.

(** The width, in percent, of the progress bar:
    [Math.min(100, Math.max(0, (queueStatus.now_serving / userSTN) * 100))]. *)
Definition progressWidth (qs : QueueStatus) (t : Z) : Q :=
  Qmin 100 (Qmax 0 ((inject_Z (now_serving qs) / inject_Z t) * 100)).

(** The block guarded by [userSTN && userPosition > 0]: the position
    and the width of the bar, when the block is rendered. *)
Definition positionBlock (stn : option Z) (qs : QueueStatus) : option (Z * Q) :=
  match stn with
  | Some t =>
      if truthy t && (0 <? userPosition stn qs)
      then Some (userPosition stn qs, progressWidth qs t)
      else None
  | None => None
  end.

(** The banner guarded by
    [userSTN && userPosition === 0 && queueStatus.now_serving >= userSTN]. *)
Definition turnBanner (stn : option Z) (qs : QueueStatus) : bool :=
  match stn with
  | Some t =>
      truthy t && (userPosition stn qs =? 0) && (now_serving qs >=? t)
  | None => false
  end.

(** What the component renders. *)
Inductive View : Type :=
| Skeleton
| Panel (shownNowServing shownWaiting : Z)
        (tokenCells : option (Z * Z))
        (position : option (Z * Q))
        (yourTurn : bool).

(** What a view shows of the position block and of the turn banner. *)
Definition shownPosition (v : View) : option (Z * Q) :=
  match v with
  | Skeleton => None
  | Panel _ _ _ position _ => position
  end.

Definition shownTurn (v : View) : bool :=
  match v with
  | Skeleton => false
  | Panel _ _ _ _ yourTurn => yourTurn
  end.

Section Render.

(** [estimateWaitTime] of [lib/utils], which the widget only calls. *)
Variable estimateWaitTime : Z -> Z.

Definition render (props : QueueWidgetProps) (loading : bool)
           (qs : QueueStatus) : View :=
  if loading then Skeleton
  else
    let pos := userPosition (userSTN props) qs in
    let estimatedWait := estimateWaitTime pos in
    Panel (now_serving qs) (total_waiting qs)
          (match userSTN props with
           | Some t => if truthy t then Some (t, estimatedWait) else None
           | None => None
           end)
          (positionBlock (userSTN props) qs)
          (turnBanner (userSTN props) qs).

End Render.

End QueueWidget.

(** ** The patient lookup *)

Module PatientLookup.

(** *** Strings *)

Definition jsstring : Type := list N.

(** The code units of a literal of the source (ASCII text). *)
Definition js (s : string) : jsstring :=
  List.map N_of_ascii (list_ascii_of_string s).

(** The characters [String.prototype.trim] strips: the white space and
    line terminator code points (TAB, LF, VT, FF, CR, SP, NBSP, the
    space separators U+1680, U+2000..U+200A, U+202F, U+205F, U+3000, the
    line and paragraph separators U+2028 and U+2029, and U+FEFF). *)
Definition isWhiteSpace (c : N) : bool :=
  (existsb (N.eqb c)
     [9; 10; 11; 12; 13; 32; 160; 5760; 8232; 8233; 8239; 8287; 12288; 65279]
   || ((8192 <=? c) && (c <=? 8202)))%N.

Fixpoint trimStart (s : jsstring) : jsstring :=
  match s with
  | [] => []
  | c :: s' => if isWhiteSpace c then trimStart s' else s
  end.

Definition trimEnd (s : jsstring) : jsstring := rev (trimStart (rev s)).

Definition trim (s : jsstring) : jsstring := trimEnd (trimStart s).

(** Truthiness of a string: every string but the empty one. *)
Definition truthyString (s : jsstring) : bool :=
  match s with
  | [] => false
  | _ :: _ => true
  end.

(** *** Records of the store *)

Inductive VisitStatus : Type := waiting | in_progress | completed.

Inductive PaymentStatus : Type := paid | pending.

Definition statusText (s : VisitStatus) : string :=
  match s with
  | waiting => "waiting"
  | in_progress => "in_progress"
  | completed => "completed"
  end.

Module Visit.
(** The columns the request selects of a visit; [departments(name)] and
    [doctors(name)] are the names of the referenced rows. *)
Record t : Type := mk {
  id : N;
  status : VisitStatus;
  queue_position : Z;
  estimated_wait_time : Z;
  payment_status : PaymentStatus;
  payment_amount : Z;
  created_at : Z;
  departments : option jsstring;
  doctors : option jsstring
}.
End Visit.

Module Patient.
(** A row of [patients] as the request selects it: all columns, and the
    visits embedded with it.  [created_at] is the column of [patients]
    the request orders by. *)
Record t : Type := mk {
  id : N;
  uid : jsstring;
  name : jsstring;
  phone : jsstring;
  age : Z;
  created_at : Z;
  visits : option (list Visit.t)
}.
End Patient.

(** [Patient & { currentVisit?: Visit }]: the object spread keeps every
    property of the row, [visits] included. *)
Record SearchResult : Type := mkResult {
  patient : Patient.t;
  currentVisit : option Visit.t
}.

(** *** The request *)

(** An embedded resource of the select list, [visits!inner(...)]. *)
Record Embed : Type := mkEmbed {
  resource : string;
  inner : bool;
  columns : list string;
  nested : list (string * list string)
}.

Record Order : Type := mkOrder {
  column : string;
  ascending : bool;
  referencedTable : option string
}.

(** What the chain [from(..).select(..).or(..).eq(..).order(..)] holds
    when it is awaited. *)
Record Request : Type := mkRequest {
  q_from : string;
  q_all_columns : bool;
  q_embeds : list Embed;
  q_or : jsstring;
  q_eq : string * string;
  q_order : Order
}.

(** The template literal of [.or(...)]:
    [uid.ilike.%${searchTerm}%,phone.ilike.%${searchTerm}%,name.ilike.%${searchTerm}%]. *)
Definition orFilter (searchTerm : jsstring) : jsstring :=
  js "uid.ilike.%" ++ searchTerm ++ js "%,phone.ilike.%" ++ searchTerm
     ++ js "%,name.ilike.%" ++ searchTerm ++ js "%".

Definition searchRequest (searchTerm : jsstring) : Request :=
  {| q_from := "patients";
     q_all_columns := true;
     q_embeds :=
       [ {| resource := "visits";
            inner := true;
            columns := ["id"; "status"; "queue_position"; "estimated_wait_time";
                        "payment_status"; "payment_amount"; "created_at"];
            nested := [("departments", ["name"]); ("doctors", ["name"])] |} ];
     q_or := orFilter searchTerm;
     q_eq := ("visits.status", "waiting");
     q_order := {| column := "created_at"; ascending := false;
                   referencedTable := None |} |}%string.

(** *** The answer of the store *)

Definition StoreError : Type := string.

(** The awaited request either resolves to [{ data, error }] or rejects. *)
Inductive Reply : Type :=
| Resolved (data : option (list Patient.t)) (error : option StoreError)
| Rejected (reason : StoreError).

(** *** The component *)

(** The four state cells of the component, and the two traces of its
    effects: the requests issued to the store and the values logged with
    [console.error]. *)
Record World : Type := mkWorld {
  searchTerm : jsstring;
  searchResults : list SearchResult;
  isLoading : bool;
  error : option string;
  issued : list Request;
  console : list StoreError
}.

Definition setSearchResults (r : list SearchResult) (w : World) : World :=
  {| searchTerm := searchTerm w; searchResults := r; isLoading := isLoading w;
     error := error w; issued := issued w; console := console w |}.

Definition setIsLoading (b : bool) (w : World) : World :=
  {| searchTerm := searchTerm w; searchResults := searchResults w; isLoading := b;
     error := error w; issued := issued w; console := console w |}.

Definition setError (e : option string) (w : World) : World :=
  {| searchTerm := searchTerm w; searchResults := searchResults w;
     isLoading := isLoading w; error := e; issued := issued w;
     console := console w |}.

Definition issue (rq : Request) (w : World) : World :=
  {| searchTerm := searchTerm w; searchResults := searchResults w;
     isLoading := isLoading w; error := error w; issued := issued w ++ [rq];
     console := console w |}.

Definition consoleError (err : StoreError) (w : World) : World :=
  {| searchTerm := searchTerm w; searchResults := searchResults w;
     isLoading := isLoading w; error := error w; issued := issued w;
     console := console w ++ [err] |}.

Definition msgEmpty : string := "Please enter a search term".
Definition msgNone : string := "No patients found matching your search".
Definition msgFailed : string := "Failed to search patients. Please try again.".

(** [{ ...patient, currentVisit: patient.visits?.[0] }] *)
Definition toResult (p : Patient.t) : SearchResult :=
  {| patient := p;
     currentVisit := match Patient.visits p with
                     | Some vs => nth_error vs 0
                     | None => None
                     end |}.

(** [patients?.map(...) || []] *)
Definition shape (patients : option (list Patient.t)) : list SearchResult :=
  match patients with
  | Some ps => List.map toResult ps
  | None => []
  end.

(** How a block of statements ends. *)
Inductive Completion : Type :=
| Normal (w : World)
| Throw (err : StoreError) (w : World).

(** [handleSearch] up to its [await]: the guard on the blank term, the
    two state updates, and the request handed to the store. *)
Definition handleSearch_start (w : World) : World * option Request :=
  if negb (truthyString (trim (searchTerm w))) then
    (setError (Some msgEmpty) w, None)
  else
    let rq := searchRequest (searchTerm w) in
    (issue rq (setError None (setIsLoading true w)), Some rq).

(** The rest of the [try] block, once the store has answered. *)
Definition tryBlock (reply : Reply) (w : World) : Completion :=
  match reply with
  | Rejected reason => Throw reason w
  | Resolved _ (Some patientsError) => Throw patientsError w
  | Resolved patients None =>
      let results := shape patients in
      let w1 := setSearchResults results w in
      if (List.length results =? 0)%nat
      then Normal (setError (Some msgNone) w1)
      else Normal w1
  end.

Definition catchBlock (c : Completion) : World :=
  match c with
  | Normal w => w
  | Throw err w => setError (Some msgFailed) (consoleError err w)
  end.

Definition finallyBlock (w : World) : World := setIsLoading false w.

(** [handleSearch] from the answer of the store on. *)
Definition handleSearch_resume (reply : Reply) (w : World) : World :=
  finallyBlock (catchBlock (tryBlock reply w)).

Section HandleSearch.

(** The store behind the client. *)
Variable store : Request -> Reply.

Definition handleSearch (w : World) : World :=
  match handleSearch_start w with
  | (w1, None) => w1
  | (w1, Some rq) => handleSearch_resume (store rq) w1
  end.

End HandleSearch.

End PatientLookup.

(** ** The store behind the client *)

Module Store.

Import PatientLookup.

(** The table [patients]; each row carries its visits, in the order the
    store holds them. *)
Definition Table : Type := list Patient.t.

Definition visitsOf (p : Patient.t) : list Visit.t :=
  match Patient.visits p with
  | Some vs => vs
  | None => []
  end.

Definition withVisits (p : Patient.t) (vs : list Visit.t) : Patient.t :=
  {| Patient.id := Patient.id p; Patient.uid := Patient.uid p;
     Patient.name := Patient.name p; Patient.phone := Patient.phone p;
     Patient.age := Patient.age p; Patient.created_at := Patient.created_at p;
     Patient.visits := Some vs |}.

Section Ordering.

Context {A : Type}.
Variable key : A -> Z.
Variable asc : bool.

Definition before (x y : A) : bool :=
  if asc then (key x <=? key y)%Z else (key y <=? key x)%Z.

Fixpoint insertRow (x : A) (l : list A) : list A :=
  match l with
  | [] => [x]
  | y :: l' => if before x y then x :: l else y :: insertRow x l'
  end.

(** Modelled from the spec: the store's "ordering by a timestamp field",
    as a stable sort of the rows on that field. *)
Definition orderBy (l : list A) : list A := fold_right insertRow [] l.

End Ordering.

(** Modelled from the spec: the store's "equality filter on a joined child
    record's field".  A filter on [visits.<column>] restricts the visits
    embedded in each row; the request only ever names [visits.status]. *)
Definition childFilter (cond : string * string) : option (Visit.t -> bool) :=
  if (fst cond =? "visits.status")%string
  then Some (fun v => (statusText (Visit.status v) =? snd cond)%string)
  else None.

(** Whether the select list embeds [visits] with [!inner]. *)
Definition innerJoin (embeds : list Embed) : bool :=
  existsb (fun e => (resource e =? "visits")%string && inner e) embeds.

Definition hasVisits (p : Patient.t) : bool :=
  match visitsOf p with
  | [] => false
  | _ :: _ => true
  end.

(** Modelled from the spec: where the ordering applies.  Without a
    referenced table the order clause sorts the rows of the queried table,
    [patients], on their own column; with [visits] as referenced table it
    sorts the visits embedded in each row and leaves the rows in place. *)
Definition ordering (o : Order) : option (list Patient.t -> list Patient.t) :=
  if (column o =? "created_at")%string then
    match referencedTable o with
    | None => Some (orderBy Patient.created_at (ascending o))
    | Some tbl =>
        if (tbl =? "visits")%string
        then Some (List.map (fun p =>
                     withVisits p (orderBy Visit.created_at (ascending o)
                                           (visitsOf p))))
        else None
    end
  else None.

Section Answer.

(** How the store reads the [or] parameter: the disjunction as a
    predicate on rows, or [None] when it refuses the parameter. *)
Variable logic : jsstring -> option (Patient.t -> bool).

(** Modelled from the spec: the evaluation of a request by the store,
    which is not among the sources.  The rows of [patients] that
    satisfy the disjunctive filter are joined to their visits that pass
    the child filter; under an inner join a row left with no visit is
    dropped ("inner-join semantics that drop parent rows with no
    matching child"); the result is ordered as the order clause says.
    A request the store cannot read is answered with an error. *)
Definition answer (db : Table) (rq : Request) : Reply :=
  if negb (q_from rq =? "patients")%string then
    Resolved None (Some "relation does not exist"%string)
  else
    match logic (q_or rq), childFilter (q_eq rq), ordering (q_order rq) with
    | Some keep, Some child, Some ord =>
        let joined :=
          List.map (fun p => withVisits p (filter child (visitsOf p)))
                   (filter keep db) in
        let rows :=
          if innerJoin (q_embeds rq) then filter hasVisits joined else joined in
        Resolved (Some (ord rows)) None
    | _, _, _ => Resolved None (Some "bad request"%string)
    end.

End Answer.

(** *** The disjunctive filter *)

Section Ilike.

(** The case folding of the store's collation, left open. *)
Variable fold : N -> N.

Inductive Token : Type :=
| AnySeq
| AnyOne
| Lit (c : N).

(** In a filter value [*] stands for [%]. *)
Definition starToPercent (p : jsstring) : jsstring :=
  List.map (fun c => if (c =? 42)%N then 37%N else c) p.

(** The pattern language of [LIKE]: [%] is any run of characters, [_]
    any one character, and a backslash takes the next character
    literally; a pattern must not end in a lone backslash. *)
Fixpoint tokens (p : jsstring) : option (list Token) :=
  match p with
  | [] => Some []
  | c :: p' =>
      if (c =? 37)%N then option_map (cons AnySeq) (tokens p')
      else if (c =? 95)%N then option_map (cons AnyOne) (tokens p')
      else if (c =? 92)%N then
        match p' with
        | [] => None
        | d :: p'' => option_map (cons (Lit d)) (tokens p'')
        end
      else option_map (cons (Lit c)) (tokens p')
  end.

Fixpoint like (p : list Token) : jsstring -> bool :=
  match p with
  | [] => fun s => match s with [] => true | _ :: _ => false end
  | AnySeq :: p' =>
      fix star (s : jsstring) : bool :=
        like p' s || match s with [] => false | _ :: s' => star s' end
  | AnyOne :: p' =>
      fun s => match s with [] => false | _ :: s' => like p' s' end
  | Lit c :: p' =>
      fun s => match s with
               | [] => false
               | d :: s' => (fold c =? fold d)%N && like p' s'
               end
  end.

(** Modelled from the spec: the store's "case-insensitive" match of a
    field against a filter value, the operator [ilike] the request
    names: the [LIKE] pattern match up to case folding. *)
Definition ilike (value : jsstring) : option (jsstring -> bool) :=
  option_map like (tokens (starToPercent value)).

Fixpoint sameText (a b : jsstring) : bool :=
  match a, b with
  | [], [] => true
  | c :: a', d :: b' => (c =? d)%N && sameText a' b'
  | _, _ => false
  end.

(** The text columns of [patients] a filter may name. *)
Definition textColumn (col : jsstring) : option (Patient.t -> jsstring) :=
  if sameText col (js "uid") then Some Patient.uid
  else if sameText col (js "phone") then Some Patient.phone
  else if sameText col (js "name") then Some Patient.name
  else None.

Fixpoint splitOn (sep : N) (s : jsstring) : list jsstring :=
  match s with
  | [] => [[]]
  | c :: s' =>
      if (c =? sep)%N then [] :: splitOn sep s'
      else match splitOn sep s' with
           | seg :: segs => (c :: seg) :: segs
           | [] => [[c]]
           end
  end.

Fixpoint breakAt (sep : N) (s : jsstring) : option (jsstring * jsstring) :=
  match s with
  | [] => None
  | c :: s' =>
      if (c =? sep)%N then Some ([], s')
      else match breakAt sep s' with
           | Some (a, b) => Some (c :: a, b)
           | None => None
           end
  end.

(** One condition [column.ilike.value] of the disjunction. *)
Definition condition (seg : jsstring) : option (Patient.t -> bool) :=
  match breakAt 46 seg with
  | Some (col, rest) =>
      match breakAt 46 rest with
      | Some (op, value) =>
          if sameText op (js "ilike") then
            match textColumn col, ilike value with
            | Some field, Some m => Some (fun p => m (field p))
            | _, _ => None
            end
          else None
      | None => None
      end
  | None => None
  end.

Fixpoint conditions (segs : list jsstring) : option (list (Patient.t -> bool)) :=
  match segs with
  | [] => Some []
  | seg :: segs' =>
      match condition seg, conditions segs' with
      | Some c, Some cs => Some (c :: cs)
      | _, _ => None
      end
  end.

(** Modelled from the spec: the store's "disjunctive ... match across
    named fields", read off the [or] parameter.  The parameter is sent
    between parentheses and lists conditions [column.ilike.value]
    separated by commas, a value running up to the next comma; a row
    passes when one condition holds.  Only this fragment of the filter
    grammar is modelled: a parameter with a closing parenthesis, with
    another operator or with a column that is not a text column of
    [patients] is refused. *)
Definition orLogic (s : jsstring) : option (Patient.t -> bool) :=
  if existsb (N.eqb 41) s then None
  else
    match conditions (splitOn 44 s) with
    | Some cs => Some (fun p => existsb (fun c => c p) cs)
    | None => None
    end.

(** The store as the component reaches it. *)
Definition store (db : Table) : Request -> Reply := answer orLogic db.

(** Case-insensitive containment: [q] occurs in [s] up to folding. *)
Fixpoint startsWithFolded (q s : jsstring) : bool :=
  match q, s with
  | [], _ => true
  | _ :: _, [] => false
  | c :: q', d :: s' => (fold c =? fold d)%N && startsWithFolded q' s'
  end.

Fixpoint includesFolded (q s : jsstring) : bool :=
  startsWithFolded q s
  || match s with
     | [] => false
     | _ :: s' => includesFolded q s'
     end.

End Ilike.

(** Lower-casing of the ASCII letters, the folding of the examples. *)
Definition asciiLower (c : N) : N :=
  if ((65 <=? c) && (c <=? 90))%N then (c + 32)%N else c.

End Store.

(** ** Vocabulary of the statements *)

Module Statements.

Import PatientLookup.

(** A term made of white space only (the empty term included). *)
Definition blank (s : jsstring) : bool := forallb isWhiteSpace s.

(** The answers that take [handleSearch] to its [catch] block. *)
Definition replyFailed (r : Reply) : bool :=
  match r with
  | Rejected _ => true
  | Resolved _ (Some _) => true
  | Resolved _ None => false
  end.

(** A search that does not complete: the term is blank, or the store
    fails. *)
Definition searchFailed (store : Request -> Reply) (w : World) : bool :=
  blank (searchTerm w) || replyFailed (store (searchRequest (searchTerm w))).

Definition isWaiting (v : Visit.t) : bool :=
  match Visit.status v with
  | waiting => true
  | _ => false
  end.

(** The characters with a meaning of their own in a filter value:
    [%], [*], [_], the backslash, the comma and the closing parenthesis. *)
Definition special (c : N) : bool := existsb (N.eqb c) [37; 42; 95; 92; 44; 41]%N.

(** A term free of such characters. *)
Definition plain (s : jsstring) : bool := forallb (fun c => negb (special c)) s.

(** Largest key first. *)
Definition descending {A : Type} (key : A -> Z) (a b : A) : Prop :=
  (key b <= key a)%Z.

(** Most recent first, on the creation time of the patient row. *)
Definition newerPatientFirst : SearchResult -> SearchResult -> Prop :=
  descending (fun r => Patient.created_at (patient r)).

End Statements.

(** ** Sample data *)

Module Sample.

Import PatientLookup Store.

Definition visit (i : N) (st : VisitStatus) (created : Z) : Visit.t :=
  {| Visit.id := i; Visit.status := st; Visit.queue_position := 1;
     Visit.estimated_wait_time := 10; Visit.payment_status := pending;
     Visit.payment_amount := 100; Visit.created_at := created;
     Visit.departments := Some (js "Cardiology");
     Visit.doctors := Some (js "Dr Rao") |}.

(** Abc Smith, an early patient with two waiting visits, the older one
    held first. *)
Definition abc : Patient.t :=
  {| Patient.id := 1; Patient.uid := js "U001"; Patient.name := js "Abc Smith";
     Patient.phone := js "555-0100"; Patient.age := 30; Patient.created_at := 10;
     Patient.visits := Some [visit 1 waiting 100; visit 2 waiting 200] |}.

(** Bob Smith, same phone, whose only visit is completed. *)
Definition bob : Patient.t :=
  {| Patient.id := 2; Patient.uid := js "U002"; Patient.name := js "Bob Smith";
     Patient.phone := js "555-0100"; Patient.age := 41; Patient.created_at := 20;
     Patient.visits := Some [visit 3 completed 300] |}.

(** Cat Smith, the latest patient, waiting since before the others. *)
Definition cat : Patient.t :=
  {| Patient.id := 3; Patient.uid := js "U003"; Patient.name := js "Cat Smith";
     Patient.phone := js "555-0199"; Patient.age := 52; Patient.created_at := 30;
     Patient.visits := Some [visit 4 waiting 50] |}.

Definition clinic : Table := [abc; bob; cat].

(** The component before a search, with the given term typed in. *)
Definition typed (term : string) : World :=
  {| searchTerm := js term; searchResults := []; isLoading := false;
     error := None; issued := []; console := [] |}.

(** The component showing an earlier result, with the given term typed in. *)
Definition showing (term : string) : World :=
  {| searchTerm := js term; searchResults := [toResult cat]; isLoading := false;
     error := None; issued := []; console := [] |}.

Definition sampleStore : Request -> Reply := store asciiLower clinic.

Definition downStore : Request -> Reply :=
  fun _ => Rejected "Failed to fetch"%string.

End Sample.

(** ** The rest of the widget's view *)

Module WidgetView.

Import QueueWidget.

Local Open Scope Z_scope.

(** The two cells guarded by [userSTN &&]: the token and the estimated
    wait, in minutes. *)
Definition shownToken (v : View) : option (Z * Z) :=
  match v with
  | Skeleton => None
  | Panel _ _ tokenCells _ _ => tokenCells
  end.

End WidgetView.

(** ** The rest of the patient lookup: events and view *)

Module LookupView.

Import PatientLookup.

(** The component as [useState] initialises it, before any effect. *)
Definition initial : World :=
  {| searchTerm := []; searchResults := []; isLoading := false;
     error := None; issued := []; console := [] |}.

(** [onChange={(e) => setSearchTerm(e.target.value)}] *)
Definition setSearchTerm (value : jsstring) (w : World) : World :=
  {| searchTerm := value; searchResults := searchResults w;
     isLoading := isLoading w; error := error w; issued := issued w;
     console := console w |}.

(** [handleKeyPress], up to the [await] of the search it may start:
    [if (e.key === 'Enter') handleSearch()]. *)
Definition handleKeyPress_start (key : jsstring) (w : World)
  : World * option Request :=
  if Store.sameText key (js "Enter") then handleSearch_start w else (w, None).

(** [handleKeyPress] with the search run to its end. *)
Definition handleKeyPress (store : Request -> Reply) (key : jsstring)
           (w : World) : World :=
  if Store.sameText key (js "Enter") then handleSearch store w else w.

(** What happens to the component: the user types, presses a key in the
    input or clicks the button, and the store answers a request that is
    under way. *)
Inductive Event : Type :=
| Typing (value : jsstring)
| KeyDown (key : jsstring)
| Click
| Answer (reply : Reply).

Definition react (e : Event) (w : World) : World :=
  match e with
  | Typing value => setSearchTerm value w
  | KeyDown key => fst (handleKeyPress_start key w)
  | Click => fst (handleSearch_start w)
  | Answer reply => handleSearch_resume reply w
  end.

Definition run (es : list Event) (w : World) : World :=
  fold_left (fun w' e => react e w') es w.

(** The events that call [handleSearch]. *)
Definition startsSearch (e : Event) : bool :=
  match e with
  | Click => true
  | KeyDown key => Store.sameText key (js "Enter")
  | Typing _ => false
  | Answer _ => false
  end.

(** The classes of the status badge and of the payment label. *)
Inductive BadgeTone : Type := yellow | blue | gray.

Inductive PaymentTone : Type := green | orange.

(** The panel guarded by [patient.currentVisit &&]. *)
Record VisitPanel : Type := mkPanel {
  shownDepartment : option jsstring;
  shownDoctor : option jsstring;
  shownQueuePosition : Z;
  paymentLabel : string;
  paymentTone : PaymentTone
}.

Record Card : Type := mkCard {
  cardKey : N;
  cardName : jsstring;
  cardUid : jsstring;
  cardPhone : jsstring;
  cardAge : Z;
  visitPanel : option VisitPanel;
  badgeTone : BadgeTone;
  badgeText : string
}.

Definition panel (v : Visit.t) : VisitPanel :=
  {| shownDepartment := Visit.departments v;
     shownDoctor := Visit.doctors v;
     shownQueuePosition := Visit.queue_position v;
     paymentLabel := match Visit.payment_status v with
                     | paid => "Paid"
                     | pending => "Pending"
                     end;
     paymentTone := match Visit.payment_status v with
                    | paid => green
                    | pending => orange
                    end |}.

(** One entry of [searchResults.map(...)]. *)
Definition card (r : SearchResult) : Card :=
  {| cardKey := Patient.id (patient r);
     cardName := Patient.name (patient r);
     cardUid := Patient.uid (patient r);
     cardPhone := Patient.phone (patient r);
     cardAge := Patient.age (patient r);
     visitPanel := option_map panel (currentVisit r);
     badgeTone := match option_map Visit.status (currentVisit r) with
                  | Some waiting => yellow
                  | Some in_progress => blue
                  | _ => gray
                  end;
     badgeText := match currentVisit r with
                  | Some v => statusText (Visit.status v)
                  | None => "No active visit"
                  end |}.

(** The arguments of [onPatientSelect?.(patient, patient.currentVisit)]
    when a card is clicked. *)
Definition selected (r : SearchResult) : Patient.t * option Visit.t :=
  (patient r, currentVisit r).

(** Truthiness of the error cell: a message that is not empty. *)
Definition truthyError (e : option string) : bool :=
  match e with
  | Some m => negb (m =? "")%string
  | None => false
  end.

Record View : Type := mkView {
  inputValue : jsstring;
  buttonDisabled : bool;
  buttonLabel : string;
  errorBox : option string;
  resultList : option (list Card);
  emptyState : bool
}.

(** What the component returns for a state. *)
Definition render (w : World) : View :=
  {| inputValue := searchTerm w;
     buttonDisabled := isLoading w;
     buttonLabel := if isLoading w then "Searching..." else "Search";
     errorBox := if truthyError (error w) then error w else None;
     resultList := if (0 <? List.length (searchResults w))%nat
                   then Some (List.map card (searchResults w))
                   else None;
     emptyState := (List.length (searchResults w) =? 0)%nat
                   && truthyString (searchTerm w)
                   && negb (isLoading w)
                   && negb (truthyError (error w)) |}.

End LookupView.

(** ** Vocabulary of the further statements *)

Module MoreStatements.

Import PatientLookup.

(** The four state cells of the lookup, without the traces. *)
Definition cells (w : World)
  : jsstring * list SearchResult * bool * option string :=
  (searchTerm w, searchResults w, isLoading w, error w).

(** A state in which a search is under way, or has left results or a
    message. *)
Definition engaged (w : World) : bool :=
  isLoading w
  || (0 <? List.length (searchResults w))%nat
  || LookupView.truthyError (error w).

(** A term made of the wildcards [%] and [*] only. *)
Definition wildcardsOnly (s : jsstring) : bool :=
  forallb (fun c => (c =? 37)%N || (c =? 42)%N) s.

End MoreStatements.

(** * Properties of the queue widget *)

Module QueueWidgetProofs.

Import QueueWidget.

Local Open Scope Z_scope.

Lemma truthy_true (n : Z) : truthy n = true <-> n <> 0.
Proof.
  unfold truthy. rewrite negb_true_iff, Z.eqb_neq. tauto.
Qed.

Lemma userPosition_nonneg (stn : option Z) (qs : QueueStatus) :
  0 <= userPosition stn qs.
Proof.
  unfold userPosition.
  destruct stn as [t|]; [|lia].
  destruct (truthy t && truthy (now_serving qs)); lia.
Qed.

Lemma userPosition_both_truthy (t : Z) (qs : QueueStatus) :
  t <> 0 -> now_serving qs <> 0 ->
  userPosition (Some t) qs = Z.max 0 (t - now_serving qs).
Proof.
  intros Ht Hn. unfold userPosition.
  apply truthy_true in Ht. apply truthy_true in Hn.
  now rewrite Ht, Hn.
Qed.

Lemma userPosition_zero_counter (t : Z) (qs : QueueStatus) :
  now_serving qs = 0 -> userPosition (Some t) qs = 0.
Proof.
  intro Hn. unfold userPosition. rewrite Hn.
  now rewrite andb_false_r.
Qed.

(** The clamps keep the width between 0 and 100 whatever the quotient. *)
Lemma progressWidth_range (qs : QueueStatus) (t : Z) :
  (0 <= progressWidth qs t /\ progressWidth qs t <= 100)%Q.
Proof.
  unfold progressWidth. split.
  - apply Q.min_glb.
    + discriminate.
    + apply Q.le_max_l.
  - apply Q.le_min_l.
Qed.

Lemma quotient_at_least_one (n t : Z) :
  0 < t -> t <= n -> (1 <= inject_Z n / inject_Z t)%Q.
Proof.
  intros Ht Hn.
  apply Qle_shift_div_l.
  - change 0%Q with (inject_Z 0). rewrite <- Zlt_Qlt. exact Ht.
  - rewrite Qmult_1_l. rewrite <- Zle_Qle. exact Hn.
Qed.

Lemma progressWidth_full (qs : QueueStatus) (t : Z) :
  0 < t -> t <= now_serving qs -> (progressWidth qs t == 100)%Q.
Proof.
  intros Ht Hn. unfold progressWidth.
  assert (H100 : (100 <= inject_Z (now_serving qs) / inject_Z t * 100)%Q).
  { setoid_replace (100%Q) with (1 * 100)%Q at 1 by reflexivity.
    apply Qmult_le_compat_r.
    - now apply quotient_at_least_one.
    - discriminate. }
  rewrite Q.max_r.
  - now apply Q.min_l.
  - apply Qle_trans with (2 := H100). discriminate.
Qed.

(** The two scenarios of the specification: counter 5 and token 8, then
    counter 9 and token 8. *)
Example scenario_waiting :
  userPosition (Some 8) (mkQueueStatus 5 2) = 3
  /\ (progressWidth (mkQueueStatus 5 2) 8 == 62.5)%Q
  /\ turnBanner (Some 8) (mkQueueStatus 5 2) = false.
Proof.
  repeat split.
Qed.

Example scenario_called :
  userPosition (Some 8) (mkQueueStatus 9 2) = 0
  /\ positionBlock (Some 8) (mkQueueStatus 9 2) = None
  /\ turnBanner (Some 8) (mkQueueStatus 9 2) = true.
Proof.
  repeat split.
Qed.

(** What the loaded widget shows is what the two guards compute. *)
Lemma render_loaded (est : Z -> Z) (props : QueueWidgetProps) (qs : QueueStatus) :
  shownPosition (render est props false qs) = positionBlock (userSTN props) qs
  /\ shownTurn (render est props false qs) = turnBanner (userSTN props) qs.
Proof.
  split; reflexivity.
Qed.

(** C4, as the code has it.  For a token and a now-serving counter that
    are both positive, the position is [max(0, token - now_serving)]; it
    is never negative; and without a token the position is 0 and neither
    the position block nor the turn banner is rendered. *)
Theorem userPosition_positive_counters (t : Z) (qs : QueueStatus) :
  0 < t -> 0 < now_serving qs ->
  userPosition (Some t) qs = Z.max 0 (t - now_serving qs)
  /\ (forall stn qs', 0 <= userPosition stn qs')
  /\ (forall est dept loading qs',
        userPosition None qs' = 0
        /\ shownPosition (render est (mkProps None dept) loading qs') = None
        /\ shownTurn (render est (mkProps None dept) loading qs') = false).
Proof.
  intros Ht Hn. split; [|split].
  - apply userPosition_both_truthy; lia.
  - intros. apply userPosition_nonneg.
  - intros est dept loading qs'. destruct loading; repeat split.
Qed.

Lemma userPosition_positive_counters_witness :
  userPosition (Some 8) (mkQueueStatus 5 2) = Z.max 0 (8 - 5).
Proof.
  apply (userPosition_positive_counters 8 (mkQueueStatus 5 2)); simpl; lia.
Defined.

(** C4 as stated fails: with token 5 and a now-serving counter of 0 the
    position is 0, not [max(0, 5 - 0) = 5]. *)
Lemma userPosition_not_max_at_zero_counter :
  userPosition (Some 5) (mkQueueStatus 0 0) = 0
  /\ userPosition (Some 5) (mkQueueStatus 0 0) <> Z.max 0 (5 - 0).
Proof.
  split; [reflexivity | discriminate].
Qed.

Lemma turnBanner_true_iff (t : Z) (qs : QueueStatus) :
  t <> 0 -> (turnBanner (Some t) qs = true <-> now_serving qs >= t).
Proof.
  intro Ht. unfold turnBanner.
  assert (Htt : truthy t = true) by now apply truthy_true.
  rewrite Htt. cbn [andb].
  rewrite andb_true_iff, Z.eqb_eq, Z.geb_le.
  split.
  - intros [_ H]. lia.
  - intro H. split; [|lia].
    destruct (Z.eq_dec (now_serving qs) 0) as [H0|H0].
    + now apply userPosition_zero_counter.
    + rewrite userPosition_both_truthy by assumption. lia.
Qed.

(** C5.  For a token that is set (tokens are positive; the code reads a
    token of 0 as no token), the loaded widget shows the turn banner
    exactly when [now_serving >= token]; without a token it never shows
    it. *)
Theorem turnBanner_iff (est : Z -> Z) (dept : option string)
        (t : Z) (qs : QueueStatus) :
  t <> 0 ->
  (shownTurn (render est (mkProps (Some t) dept) false qs) = true
   <-> now_serving qs >= t)
  /\ shownTurn (render est (mkProps None dept) false qs) = false.
Proof.
  intro Ht. split; [|reflexivity].
  destruct (render_loaded est (mkProps (Some t) dept) qs) as [_ ->].
  now apply turnBanner_true_iff.
Qed.

Lemma turnBanner_iff_witness :
  shownTurn (render (fun pos => pos * 5) (mkProps (Some 8) None) false
                    (mkQueueStatus 9 0)) = true
  /\ shownTurn (render (fun pos => pos * 5) (mkProps (Some 8) None) false
                       (mkQueueStatus 5 3)) = false.
Proof.
  split.
  - apply (turnBanner_iff (fun pos => pos * 5) None 8 (mkQueueStatus 9 0));
      [lia | simpl; lia].
  - destruct (shownTurn (render (fun pos => pos * 5) (mkProps (Some 8) None) false
                                (mkQueueStatus 5 3))) eqn:E; [|reflexivity].
    apply (turnBanner_iff (fun pos => pos * 5) None 8 (mkQueueStatus 5 3)) in E;
      [|lia].
    simpl in E. lia.
Defined.

(** C6.  For a positive token the width of the progress bar lies between
    0 and 100 percent, that is the ratio lies in [0,1], whatever the
    counter; it is clamped to 100 percent when the counter exceeds the
    token; a position block that is shown carries that width; and for a
    token of 0, or no token, the block holding the division is not
    rendered, so nothing is divided by zero. *)
Theorem progress_ratio_bounded (est : Z -> Z) (dept : option string)
        (t : Z) (qs : QueueStatus) :
  0 < t ->
  (0 <= progressWidth qs t / 100 /\ progressWidth qs t / 100 <= 1)%Q
  /\ (t < now_serving qs -> (progressWidth qs t / 100 == 1)%Q)
  /\ (forall pos w,
        shownPosition (render est (mkProps (Some t) dept) false qs) = Some (pos, w) ->
        w = progressWidth qs t)
  /\ shownPosition (render est (mkProps (Some 0) dept) false qs) = None
  /\ shownPosition (render est (mkProps None dept) false qs) = None.
Proof.
  intros Ht.
  destruct (progressWidth_range qs t) as [Hlo Hhi].
  repeat split.
  - apply Qle_shift_div_l; [reflexivity|]. now rewrite Qmult_0_l.
  - apply Qle_shift_div_r; [reflexivity|]. now rewrite Qmult_1_l.
  - intro Hgt. rewrite progressWidth_full by lia. reflexivity.
  - intros pos w.
    destruct (render_loaded est (mkProps (Some t) dept) qs) as [-> _].
    unfold positionBlock. cbn [userSTN].
    destruct (truthy t && (0 <? userPosition (Some t) qs)); [|discriminate].
    now intros [= _ <-].
Qed.

Lemma progress_ratio_bounded_witness :
  (0 <= progressWidth (mkQueueStatus 5 2) 8 / 100
   /\ progressWidth (mkQueueStatus 5 2) 8 / 100 <= 1)%Q
  /\ shownPosition (render (fun pos => pos * 5) (mkProps (Some 8) None) false
                           (mkQueueStatus 5 2))
     = Some (3, progressWidth (mkQueueStatus 5 2) 8).
Proof.
  split.
  - apply (progress_ratio_bounded (fun pos => pos * 5) None 8 (mkQueueStatus 5 2)).
    lia.
  - reflexivity.
Defined.

(** C9.  For a positive token and a now-serving counter of 0 the position
    is 0, not [max(0, token - 0) = token]; and for a token of 0, or no
    token, the position is 0 whatever the counter. *)
Theorem zero_counter_collapses_position (t : Z) (qs qs' : QueueStatus) :
  0 < t -> now_serving qs = 0 ->
  userPosition (Some t) qs = 0
  /\ Z.max 0 (t - now_serving qs) = t
  /\ userPosition (Some t) qs <> Z.max 0 (t - now_serving qs)
  /\ userPosition (Some 0) qs' = 0
  /\ userPosition None qs' = 0.
Proof.
  intros Ht Hn.
  rewrite (userPosition_zero_counter t qs Hn), Hn.
  repeat split; try lia.
Qed.

Lemma zero_counter_collapses_position_witness :
  userPosition (Some 5) (mkQueueStatus 0 4) = 0
  /\ Z.max 0 (5 - 0) = 5.
Proof.
  destruct (zero_counter_collapses_position 5 (mkQueueStatus 0 4)
              (mkQueueStatus 7 1)) as (H1 & H2 & _); [lia | reflexivity |].
  split; [exact H1 | exact H2].
Defined.

End QueueWidgetProofs.

(** * Properties of the patient lookup *)

Module PatientLookupProofs.

Import PatientLookup Store Statements.

(** *** Trimming *)

Lemma trimStart_nil_iff (s : jsstring) :
  trimStart s = [] <-> blank s = true.
Proof.
  unfold blank. induction s as [|c s IH]; simpl.
  - tauto.
  - destruct (isWhiteSpace c); simpl.
    + exact IH.
    + split; discriminate.
Qed.

Lemma trimStart_head (s : jsstring) (c : N) (r : jsstring) :
  trimStart s = c :: r -> isWhiteSpace c = false.
Proof.
  induction s as [|d s IH]; simpl.
  - discriminate.
  - destruct (isWhiteSpace d) eqn:E.
    + exact IH.
    + intros [= -> _]. exact E.
Qed.

Lemma blank_rev (s : jsstring) : blank (rev s) = blank s.
Proof.
  unfold blank. induction s as [|c s IH]; simpl.
  - reflexivity.
  - rewrite forallb_app, IH. simpl. rewrite andb_true_r. apply andb_comm.
Qed.

(** The trimmed term is empty exactly when the term is blank. *)
Lemma trim_empty_iff (s : jsstring) :
  truthyString (trim s) = false <-> blank s = true.
Proof.
  unfold trim, trimEnd. split.
  - intro H.
    destruct (trimStart s) as [|c r] eqn:E.
    + now apply trimStart_nil_iff.
    + exfalso.
      pose proof (trimStart_head s c r E) as Hc.
      destruct (rev (trimStart (rev (c :: r)))) as [|x xs] eqn:E2;
        [|discriminate H].
      apply (f_equal (@rev N)) in E2. rewrite rev_involutive in E2.
      change (rev []) with (@nil N) in E2.
      apply trimStart_nil_iff in E2. rewrite blank_rev in E2.
      unfold blank in E2. simpl in E2. rewrite Hc in E2. discriminate.
  - intro H. apply trimStart_nil_iff in H. rewrite H. reflexivity.
Qed.

Lemma trim_nonempty_iff (s : jsstring) :
  truthyString (trim s) = true <-> blank s = false.
Proof.
  pose proof (trim_empty_iff s) as H.
  destruct (truthyString (trim s)), (blank s); intuition congruence.
Qed.

(** *** The two paths of [handleSearch] *)

Lemma handleSearch_blank (store : Request -> Reply) (w : World) :
  blank (searchTerm w) = true ->
  handleSearch_start w = (setError (Some msgEmpty) w, None)
  /\ handleSearch store w = setError (Some msgEmpty) w.
Proof.
  intro H. apply trim_empty_iff in H.
  unfold handleSearch, handleSearch_start. rewrite H. simpl. auto.
Qed.

Lemma handleSearch_nonblank (store : Request -> Reply) (w : World) :
  blank (searchTerm w) = false ->
  handleSearch store w
  = handleSearch_resume (store (searchRequest (searchTerm w)))
      (issue (searchRequest (searchTerm w))
             (setError None (setIsLoading true w))).
Proof.
  intro H. apply trim_nonempty_iff in H.
  unfold handleSearch, handleSearch_start. rewrite H. reflexivity.
Qed.

Lemma resume_failed (reply : Reply) (w : World) :
  replyFailed reply = true ->
  searchResults (handleSearch_resume reply w) = searchResults w
  /\ error (handleSearch_resume reply w) = Some msgFailed.
Proof.
  destruct reply as [data [e|]|reason]; simpl; try discriminate; auto.
Qed.

Lemma resume_succeeded (data : option (list Patient.t)) (w : World) :
  searchResults (handleSearch_resume (Resolved data None) w) = shape data
  /\ error (handleSearch_resume (Resolved data None) w)
     = match shape data with
       | [] => Some msgNone
       | _ :: _ => error w
       end.
Proof.
  unfold handleSearch_resume, tryBlock.
  destruct (shape data) as [|r rs]; simpl; auto.
Qed.

Lemma search_succeeded (store : Request -> Reply) (w : World)
      (data : option (list Patient.t)) :
  blank (searchTerm w) = false ->
  store (searchRequest (searchTerm w)) = Resolved data None ->
  searchResults (handleSearch store w) = shape data.
Proof.
  intros Hb Hs. rewrite handleSearch_nonblank by assumption. rewrite Hs.
  apply resume_succeeded.
Qed.

(** C7.  For a blank term, the empty one included, [handleSearch] only
    sets the message asking for a term: nothing is handed to the store,
    and the trace of issued requests is as it was. *)
Theorem blank_query_rejected (store : Request -> Reply) (w : World) :
  blank (searchTerm w) = true ->
  error (handleSearch store w) = Some msgEmpty
  /\ snd (handleSearch_start w) = None
  /\ issued (handleSearch store w) = issued w
  /\ searchResults (handleSearch store w) = searchResults w.
Proof.
  intro H.
  destruct (handleSearch_blank store w H) as [Hs Hh].
  rewrite Hh, Hs. simpl. auto.
Qed.

Lemma blank_query_rejected_witness :
  (error (handleSearch Sample.sampleStore (Sample.typed "")) = Some msgEmpty
   /\ issued (handleSearch Sample.sampleStore (Sample.typed "")) = [])
  /\ (error (handleSearch Sample.sampleStore (Sample.typed "   ")) = Some msgEmpty
      /\ issued (handleSearch Sample.sampleStore (Sample.typed "   ")) = []).
Proof.
  split.
  - destruct (blank_query_rejected Sample.sampleStore (Sample.typed ""))
      as (H1 & _ & H3 & _); [reflexivity | split; [exact H1 | exact H3]].
  - destruct (blank_query_rejected Sample.sampleStore (Sample.typed "   "))
      as (H1 & _ & H3 & _); [reflexivity | split; [exact H1 | exact H3]].
Defined.

(** C10.  A search that fails, on a blank term or on an answer of the
    store that is an error or a rejection, leaves the result list as it
    was; so does the part of [handleSearch] after the [await], in
    whatever state the answer finds the component.  A search that does
    not fail stores the rows of the answer as the result list. *)
Theorem failed_search_keeps_results (store : Request -> Reply) (w : World) :
  searchFailed store w = true ->
  searchResults (handleSearch store w) = searchResults w
  /\ (forall reply w', replyFailed reply = true ->
        searchResults (handleSearch_resume reply w') = searchResults w')
  /\ (forall store' w', searchFailed store' w' = false ->
        exists data,
          store' (searchRequest (searchTerm w')) = Resolved data None
          /\ searchResults (handleSearch store' w') = shape data).
Proof.
  intro H. split; [|split].
  - unfold searchFailed in H.
    destruct (blank (searchTerm w)) eqn:Hb.
    + destruct (handleSearch_blank store w Hb) as [_ ->]. reflexivity.
    + simpl in H. rewrite handleSearch_nonblank by assumption.
      now destruct (resume_failed _ (issue (searchRequest (searchTerm w))
                      (setError None (setIsLoading true w))) H) as [-> _].
  - intros reply w' Hr. now apply resume_failed.
  - intros store' w' Hf. unfold searchFailed in Hf.
    apply orb_false_elim in Hf. destruct Hf as [Hb Hr].
    destruct (store' (searchRequest (searchTerm w'))) as [data [e|]|reason] eqn:E;
      try discriminate Hr.
    exists data. split; [reflexivity|]. now apply search_succeeded.
Qed.

Lemma failed_search_keeps_results_witness :
  searchResults (handleSearch Sample.downStore (Sample.showing "smith"))
  = [toResult Sample.cat]
  /\ searchResults (handleSearch Sample.sampleStore (Sample.showing "a,c"))
     = [toResult Sample.cat].
Proof.
  split.
  - destruct (failed_search_keeps_results Sample.downStore
                (Sample.showing "smith")) as [H _]; [reflexivity | exact H].
  - destruct (failed_search_keeps_results Sample.sampleStore
                (Sample.showing "a,c")) as [H _]; [reflexivity | exact H].
Defined.

(** C1 as stated fails: a search that matches no patient leaves the list
    empty, and it also sets the error message of the component. *)
Lemma no_match_sets_error_message :
  Sample.sampleStore (searchRequest (js "zzz")) = Resolved (Some []) None
  /\ searchResults (handleSearch Sample.sampleStore (Sample.typed "zzz")) = []
  /\ error (handleSearch Sample.sampleStore (Sample.typed "zzz")) <> None.
Proof.
  repeat split; vm_compute; discriminate.
Qed.

(** C1, as the code has it.  When the store answers a search without an
    error and with no row, the result list becomes empty and the error
    message becomes "No patients found matching your search"; this message
    differs from the one of a failed request and from the one of a blank
    term, and a failed request always sets its own message. *)
Theorem no_match_empties_list_with_message
        (store : Request -> Reply) (w : World) (data : option (list Patient.t)) :
  blank (searchTerm w) = false ->
  store (searchRequest (searchTerm w)) = Resolved data None ->
  data = None \/ data = Some [] ->
  searchResults (handleSearch store w) = []
  /\ error (handleSearch store w) = Some msgNone
  /\ msgNone <> msgFailed
  /\ msgNone <> msgEmpty
  /\ (forall store' w',
        blank (searchTerm w') = false ->
        replyFailed (store' (searchRequest (searchTerm w'))) = true ->
        error (handleSearch store' w') = Some msgFailed).
Proof.
  intros Hb Hs Hd.
  assert (Hshape : shape data = []) by (destruct Hd; subst; reflexivity).
  rewrite handleSearch_nonblank by assumption. rewrite Hs.
  destruct (resume_succeeded data
              (issue (searchRequest (searchTerm w))
                     (setError None (setIsLoading true w)))) as [-> ->].
  rewrite Hshape.
  repeat split; try discriminate.
  intros store' w' Hb' Hf.
  rewrite handleSearch_nonblank by assumption.
  now apply resume_failed.
Qed.

Lemma no_match_empties_list_with_message_witness :
  searchResults (handleSearch Sample.sampleStore (Sample.showing "zzz")) = []
  /\ error (handleSearch Sample.sampleStore (Sample.showing "zzz")) = Some msgNone.
Proof.
  destruct (no_match_empties_list_with_message Sample.sampleStore
              (Sample.showing "zzz") (Some []))
    as (H1 & H2 & _); [reflexivity | reflexivity | right; reflexivity |].
  split; [exact H1 | exact H2].
Defined.

(** *** The answer of the store to the request of the component *)

Lemma waitingText_isWaiting (v : Visit.t) :
  (statusText (Visit.status v) =? "waiting")%string = isWaiting v.
Proof.
  unfold isWaiting. now destruct (Visit.status v).
Qed.

Lemma isWaiting_true (v : Visit.t) :
  isWaiting v = true <-> Visit.status v = waiting.
Proof.
  unfold isWaiting. destruct (Visit.status v); split; congruence.
Qed.

(** The rows the store joins for the request: the rows passing the
    disjunction, each with its waiting visits, those left with none
    dropped. *)
Lemma answer_searchRequest (logic : jsstring -> option (Patient.t -> bool))
      (db : Table) (term : jsstring) :
  answer logic db (searchRequest term)
  = match logic (orFilter term) with
    | Some keep =>
        Resolved
          (Some (orderBy Patient.created_at false
                   (filter hasVisits
                      (List.map (fun p => withVisits p (filter isWaiting (visitsOf p)))
                                (filter keep db)))))
          None
    | None => Resolved None (Some "bad request"%string)
    end.
Proof.
  unfold answer. cbn -[orderBy filter List.map].
  destruct (logic (orFilter term)) as [keep|]; [|reflexivity].
  do 3 f_equal. f_equal.
  apply map_ext. intro p. f_equal.
  apply filter_ext. intro v. apply waitingText_isWaiting.
Qed.

Section OrderByFacts.

Context {A : Type}.
Variable key : A -> Z.

Lemma insertRow_In (asc : bool) (x y : A) (l : list A) :
  In y (insertRow key asc x l) <-> y = x \/ In y l.
Proof.
  induction l as [|z l IH]; simpl.
  - intuition.
  - destruct (before key asc x z); simpl; rewrite ?IH; intuition.
Qed.

Lemma orderBy_In (asc : bool) (y : A) (l : list A) :
  In y (orderBy key asc l) <-> In y l.
Proof.
  induction l as [|z l IH]; simpl.
  - tauto.
  - rewrite insertRow_In, IH. intuition.
Qed.

Lemma insertRow_descending (x : A) (l : list A) :
  StronglySorted (descending key) l ->
  StronglySorted (descending key) (insertRow key false x l).
Proof.
  induction 1 as [|z l Hs IH Hz]; simpl.
  - constructor; constructor.
  - unfold before. destruct (key z <=? key x)%Z eqn:E.
    + apply Z.leb_le in E. constructor.
      * now constructor.
      * constructor; [exact E|].
        rewrite Forall_forall in Hz |- *. intros u Hu.
        specialize (Hz u Hu). unfold descending in *. lia.
    + apply Z.leb_gt in E. constructor; [exact IH|].
      rewrite Forall_forall in Hz |- *. intros u Hu.
      apply insertRow_In in Hu. destruct Hu as [->|Hu].
      * unfold descending. lia.
      * now apply Hz.
Qed.

Lemma orderBy_descending (l : list A) :
  StronglySorted (descending key) (orderBy key false l).
Proof.
  induction l as [|z l IH]; simpl.
  - constructor.
  - now apply insertRow_descending.
Qed.

End OrderByFacts.

Lemma same_key_same_row (db : Table) (p q : Patient.t) :
  NoDup (List.map Patient.id db) ->
  In p db -> In q db -> Patient.id p = Patient.id q -> p = q.
Proof.
  induction db as [|x db IH]; simpl; [tauto|].
  intros Hnd Hp Hq Hid. inversion Hnd as [|? ? Hx Hnd']; subst.
  destruct Hp as [->|Hp], Hq as [->|Hq]; auto.
  - exfalso. apply Hx. rewrite Hid. now apply in_map.
  - exfalso. apply Hx. rewrite <- Hid. now apply in_map.
Qed.

(** Every row of a successful answer stems from a row of the table that
    has a waiting visit, and carries the waiting visits of that row in
    the order of the table. *)
Lemma answer_rows (logic : jsstring -> option (Patient.t -> bool))
      (db : Table) (term : jsstring) (data : option (list Patient.t)) :
  answer logic db (searchRequest term) = Resolved data None ->
  exists rows, data = Some rows
    /\ StronglySorted (descending Patient.created_at) rows
    /\ forall row, In row rows ->
         exists p, In p db
           /\ row = withVisits p (filter isWaiting (visitsOf p))
           /\ exists v, In v (visitsOf p) /\ Visit.status v = waiting.
Proof.
  rewrite answer_searchRequest.
  destruct (logic (orFilter term)) as [keep|]; [|discriminate].
  intros [= <-]. eexists. split; [reflexivity|]. split.
  - apply orderBy_descending.
  - intros row Hrow.
    apply orderBy_In in Hrow. apply filter_In in Hrow. destruct Hrow as [Hrow Hv].
    apply in_map_iff in Hrow. destruct Hrow as (p & <- & Hp).
    apply filter_In in Hp. destruct Hp as [Hp _].
    exists p. split; [exact Hp|]. split; [reflexivity|].
    unfold hasVisits in Hv. cbn [visitsOf withVisits Patient.visits] in Hv.
    destruct (filter isWaiting (visitsOf p)) as [|v vs] eqn:E; [discriminate|].
    assert (Hin : In v (filter isWaiting (visitsOf p))) by (rewrite E; now left).
    apply filter_In in Hin. destruct Hin as [Hin Hw].
    exists v. split; [exact Hin|]. now apply isWaiting_true.
Qed.

(** C2.  After a search that the store answers, every result stems from a
    patient of the table with at least one visit whose status is
    [waiting], and carries exactly the waiting visits of that patient; a
    patient of the table with no waiting visit, whatever its uid, phone
    and name, is in no result.  This holds however the store reads the
    disjunction. *)
Theorem results_only_waiting_patients
        (logic : jsstring -> option (Patient.t -> bool))
        (db : Table) (w : World) (data : option (list Patient.t)) :
  blank (searchTerm w) = false ->
  answer logic db (searchRequest (searchTerm w)) = Resolved data None ->
  NoDup (List.map Patient.id db) ->
  (forall r, In r (searchResults (handleSearch (answer logic db) w)) ->
     exists p, In p db
       /\ patient r = withVisits p (filter isWaiting (visitsOf p))
       /\ exists v, In v (visitsOf p) /\ Visit.status v = waiting)
  /\ (forall p, In p db ->
        (forall v, In v (visitsOf p) -> Visit.status v <> waiting) ->
        forall r, In r (searchResults (handleSearch (answer logic db) w)) ->
                  Patient.id (patient r) <> Patient.id p).
Proof.
  intros Hb Hs Hnd.
  rewrite (search_succeeded _ w _ Hb Hs).
  destruct (answer_rows logic db (searchTerm w) _ Hs) as (rows & -> & _ & Hrows).
  assert (Hfirst : forall r, In r (shape (Some rows)) ->
            exists p, In p db
              /\ patient r = withVisits p (filter isWaiting (visitsOf p))
              /\ exists v, In v (visitsOf p) /\ Visit.status v = waiting).
  { intros r Hr. simpl in Hr. apply in_map_iff in Hr.
    destruct Hr as (row & <- & Hrow). simpl. now apply Hrows. }
  split; [exact Hfirst|].
  intros p Hp Hnone r Hr Hid.
  destruct (Hfirst r Hr) as (p' & Hp' & Hpat & v & Hv & Hw).
  assert (Hsame : p' = p).
  { apply (same_key_same_row db); auto. rewrite <- Hid, Hpat. reflexivity. }
  subst p'. exact (Hnone v Hv Hw).
Qed.

Lemma results_only_waiting_patients_witness :
  List.map (fun r => Patient.id (patient r))
           (searchResults (handleSearch Sample.sampleStore (Sample.typed "555-0100")))
  = [1%N]
  /\ Forall (fun r => Patient.id (patient r) <> Patient.id Sample.bob)
            (searchResults (handleSearch Sample.sampleStore (Sample.typed "555-0100"))).
Proof.
  split; [reflexivity|].
  edestruct (results_only_waiting_patients (orLogic asciiLower) Sample.clinic
               (Sample.typed "555-0100")) as [_ H].
  - reflexivity.
  - vm_compute. reflexivity.
  - repeat constructor; simpl; intuition discriminate.
  - apply Forall_forall. apply (H Sample.bob).
    + simpl. auto.
    + intros v [<-|[]]. discriminate.
Defined.

Lemma StronglySorted_map {A B : Type} (f : A -> B) (R : B -> B -> Prop)
      (l : list A) :
  StronglySorted (fun a b => R (f a) (f b)) l ->
  StronglySorted R (List.map f l).
Proof.
  induction 1 as [|a l Hs IH Ha]; simpl; constructor; auto.
  rewrite Forall_forall in Ha |- *. intros b Hb.
  apply in_map_iff in Hb. destruct Hb as (x & <- & Hx). now apply Ha.
Qed.

(** C3 as stated fails: the first visit the store returns for Abc Smith
    is the older of the two waiting visits, so the current visit is not
    the most recent one; the newer visit stays in the visits of the
    result; and the results come in the order of the patients' creation
    times, Cat Smith first, although her visit is the oldest. *)
Lemma current_visit_not_most_recent :
  exists r1 r2 v1 v2 v',
    searchResults (handleSearch Sample.sampleStore (Sample.typed "smith")) = [r1; r2]
    /\ currentVisit r1 = Some v1
    /\ currentVisit r2 = Some v2
    /\ (Visit.created_at v1 < Visit.created_at v2)%Z
    /\ In v' (visitsOf (patient r2))
    /\ (Visit.created_at v2 < Visit.created_at v')%Z.
Proof.
  do 5 eexists. split; [vm_compute; reflexivity|].
  split; [reflexivity|]. split; [reflexivity|].
  split; [reflexivity|]. split; [right; left; reflexivity | reflexivity].
Qed.

(** C3, as the code has it.  After a search that the store answers, the
    results are the rows of the answer, in the order of the answer; the
    current visit of a result is the first of the visits its row carries,
    which are the waiting visits of the patient in the order the store
    holds them, and the row keeps them all.  The order clause of the
    request names [created_at] descending with no referenced table, and
    so the results are ordered on the creation time of the patient rows,
    most recent first. *)
Theorem current_visit_first_in_store_order
        (logic : jsstring -> option (Patient.t -> bool))
        (db : Table) (w : World) (rows : list Patient.t) :
  blank (searchTerm w) = false ->
  answer logic db (searchRequest (searchTerm w)) = Resolved (Some rows) None ->
  searchResults (handleSearch (answer logic db) w) = List.map toResult rows
  /\ (forall r, In r (searchResults (handleSearch (answer logic db) w)) ->
        currentVisit r = nth_error (visitsOf (patient r)) 0
        /\ exists p, In p db
             /\ visitsOf (patient r) = filter isWaiting (visitsOf p))
  /\ q_order (searchRequest (searchTerm w))
     = {| column := "created_at"; ascending := false; referencedTable := None |}
  /\ StronglySorted newerPatientFirst
                    (searchResults (handleSearch (answer logic db) w)).
Proof.
  intros Hb Hs.
  rewrite (search_succeeded _ w _ Hb Hs).
  destruct (answer_rows logic db (searchTerm w) _ Hs) as (rows' & [= <-] & Hsorted & Hrows).
  split; [reflexivity|]. split; [|split; [reflexivity|]].
  - intros r Hr. simpl in Hr. apply in_map_iff in Hr.
    destruct Hr as (row & <- & Hrow).
    destruct (Hrows row Hrow) as (p & Hp & -> & _).
    split; [reflexivity|]. exists p. split; [exact Hp | reflexivity].
  - simpl. apply StronglySorted_map. exact Hsorted.
Qed.

Lemma current_visit_first_in_store_order_witness :
  List.map (fun r => (Patient.id (patient r), option_map Visit.id (currentVisit r)))
           (searchResults (handleSearch Sample.sampleStore (Sample.typed "smith")))
  = [(3%N, Some 4%N); (1%N, Some 1%N)].
Proof.
  edestruct (current_visit_first_in_store_order (orLogic asciiLower) Sample.clinic
               (Sample.typed "smith")) as [H _].
  - reflexivity.
  - vm_compute. reflexivity.
  - unfold Sample.sampleStore, store. rewrite H. reflexivity.
Defined.

(** *** The disjunction the request carries *)

Lemma plain_cons (c : N) (q : jsstring) :
  plain (c :: q) = true ->
  (c <> 37 /\ c <> 42 /\ c <> 95 /\ c <> 92 /\ c <> 44 /\ c <> 41)%N
  /\ plain q = true.
Proof.
  unfold plain. simpl. rewrite andb_true_iff, negb_true_iff.
  intros [Hc Hq]. split; [|exact Hq].
  unfold special in Hc. simpl in Hc.
  repeat (apply orb_false_elim in Hc; destruct Hc as [?H Hc]).
  repeat match goal with H : (_ =? _)%N = false |- _ => apply N.eqb_neq in H end.
  tauto.
Qed.

Lemma plain_avoids (q : jsstring) (c : N) :
  plain q = true -> special c = true -> ~ In c q.
Proof.
  unfold plain. rewrite forallb_forall. intros Hq Hc Hin.
  specialize (Hq c Hin). rewrite Hc in Hq. discriminate.
Qed.

Section FilterGrammar.

Variable fold : N -> N.

Lemma splitOn_no_sep (sep : N) (a : jsstring) :
  ~ In sep a -> splitOn sep a = [a].
Proof.
  induction a as [|c a IH]; simpl; [reflexivity|].
  intro H. destruct (N.eqb_spec c sep) as [->|_].
  - exfalso. apply H. now left.
  - rewrite IH by tauto. reflexivity.
Qed.

Lemma splitOn_app_sep (sep : N) (a b : jsstring) :
  ~ In sep a -> splitOn sep (a ++ sep :: b) = a :: splitOn sep b.
Proof.
  induction a as [|c a IH]; simpl.
  - intros _. now rewrite N.eqb_refl.
  - intro H. destruct (N.eqb_spec c sep) as [->|_].
    + exfalso. apply H. now left.
    + rewrite IH by tauto. reflexivity.
Qed.

Lemma starToPercent_plain (q : jsstring) :
  plain q = true -> starToPercent q = q.
Proof.
  induction q as [|c q IH]; [reflexivity|].
  intro H. apply plain_cons in H. destruct H as [(_ & H42 & _) Hq].
  simpl. apply N.eqb_neq in H42. rewrite H42. now rewrite IH.
Qed.

Lemma tokens_plain (q rest : jsstring) (toks : list Token) :
  plain q = true -> tokens rest = Some toks ->
  tokens (q ++ rest) = Some (List.map Lit q ++ toks).
Proof.
  intros Hq Hrest. induction q as [|c q IH]; [exact Hrest|].
  apply plain_cons in Hq. destruct Hq as [(H37 & _ & H95 & H92 & _) Hq].
  apply N.eqb_neq in H37, H95, H92.
  simpl. rewrite H37, H95, H92. now rewrite IH.
Qed.

Lemma like_star (p : list Token) (s : jsstring) :
  like fold (AnySeq :: p) s
  = like fold p s
    || match s with
       | [] => false
       | _ :: s' => like fold (AnySeq :: p) s'
       end.
Proof.
  destruct s; reflexivity.
Qed.

Lemma like_any (s : jsstring) : like fold [AnySeq] s = true.
Proof.
  induction s as [|c s IH]; rewrite like_star; [reflexivity|].
  now rewrite IH, orb_true_r.
Qed.

Lemma like_literals (q s : jsstring) :
  like fold (List.map Lit q ++ [AnySeq]) s = startsWithFolded fold q s.
Proof.
  revert s. induction q as [|c q IH]; intro s.
  - simpl List.map. simpl app. rewrite like_any. now destruct s.
  - destruct s as [|d s]; [reflexivity|]. simpl. now rewrite <- IH.
Qed.

(** The pattern [%q%] of a plain term is containment up to folding. *)
Lemma like_contains (q s : jsstring) :
  like fold (AnySeq :: List.map Lit q ++ [AnySeq]) s = includesFolded fold q s.
Proof.
  induction s as [|d s IH]; rewrite like_star, like_literals.
  - reflexivity.
  - simpl includesFolded. now rewrite IH.
Qed.

Lemma ilike_plain (q : jsstring) :
  plain q = true ->
  ilike fold (37%N :: q ++ [37%N])
  = Some (like fold (AnySeq :: List.map Lit q ++ [AnySeq])).
Proof.
  intro Hq. unfold ilike.
  assert (E : starToPercent (37%N :: q ++ [37%N]) = 37%N :: q ++ [37%N]).
  { unfold starToPercent. simpl. rewrite map_app. simpl.
    fold (starToPercent q). now rewrite starToPercent_plain. }
  rewrite E. simpl tokens.
  rewrite (tokens_plain q [37%N] [AnySeq] Hq eq_refl). reflexivity.
Qed.

(** The three segments of the parameter, for a term with no comma. *)
Lemma orFilter_segments (q : jsstring) :
  ~ In 44%N q ->
  splitOn 44 (orFilter q)
  = [ js "uid.ilike." ++ 37%N :: q ++ [37%N];
      js "phone.ilike." ++ 37%N :: q ++ [37%N];
      js "name.ilike." ++ 37%N :: q ++ [37%N] ].
Proof.
  intro H.
  assert (Hseg : forall pre, ~ In 44%N pre -> ~ In 44%N (pre ++ 37%N :: q ++ [37%N])).
  { intros pre Hpre Hin. apply in_app_or in Hin. destruct Hin as [Hin|[Hin|Hin]].
    - now apply Hpre.
    - discriminate Hin.
    - apply in_app_or in Hin. destruct Hin as [Hin|[Hin|[]]]; [now apply H|].
      discriminate Hin. }
  assert (Hpre : forall t, In t ["uid.ilike."; "phone.ilike."; "name.ilike."]%string ->
                           ~ In 44%N (js t)).
  { intros t [<-|[<-|[<-|[]]]]; vm_compute; intuition discriminate. }
  replace (orFilter q)
    with ((js "uid.ilike." ++ 37%N :: q ++ [37%N]) ++ 44%N
          :: (js "phone.ilike." ++ 37%N :: q ++ [37%N]) ++ 44%N
          :: (js "name.ilike." ++ 37%N :: q ++ [37%N])).
  - rewrite splitOn_app_sep by (apply Hseg, Hpre; simpl; auto).
    rewrite splitOn_app_sep by (apply Hseg, Hpre; simpl; auto).
    rewrite splitOn_no_sep by (apply Hseg, Hpre; simpl; auto).
    reflexivity.
  - unfold orFilter, js. simpl. repeat rewrite <- app_assoc. reflexivity.
Qed.

Lemma orFilter_no_paren (q : jsstring) :
  ~ In 41%N q -> existsb (N.eqb 41) (orFilter q) = false.
Proof.
  intro H.
  assert (Hq : existsb (N.eqb 41) q = false).
  { destruct (existsb (N.eqb 41) q) eqn:E; [|reflexivity].
    apply existsb_exists in E. destruct E as (c & Hc & Heq).
    apply N.eqb_eq in Heq. subst c. contradiction. }
  unfold orFilter. repeat rewrite existsb_app. rewrite Hq. reflexivity.
Qed.

Lemma orLogic_plain (q : jsstring) :
  plain q = true ->
  exists keep,
    orLogic fold (orFilter q) = Some keep
    /\ forall p, keep p = includesFolded fold q (Patient.uid p)
                          || includesFolded fold q (Patient.phone p)
                          || includesFolded fold q (Patient.name p).
Proof.
  intro Hq.
  assert (H44 : ~ In 44%N q) by now apply plain_avoids.
  assert (H41 : ~ In 41%N q) by now apply plain_avoids.
  unfold orLogic. rewrite (orFilter_no_paren q H41), (orFilter_segments q H44).
  unfold conditions, condition. cbn -[ilike like].
  rewrite (ilike_plain q Hq).
  eexists. split; [reflexivity|].
  intro p. cbn [existsb]. rewrite !like_contains, orb_false_r, orb_assoc.
  reflexivity.
Qed.

End FilterGrammar.

(** C8 as stated fails: the term [a_c] is not blank and none of the
    fields of Abc Smith contains it, yet the disjunction sent for it, as
    the store reads it, accepts Abc Smith, and the search returns that
    patient: under [ilike] the underscore stands for any one character. *)
Lemma underscore_matches_without_containing :
  blank (js "a_c") = false
  /\ includesFolded asciiLower (js "a_c") (Patient.uid Sample.abc) = false
  /\ includesFolded asciiLower (js "a_c") (Patient.phone Sample.abc) = false
  /\ includesFolded asciiLower (js "a_c") (Patient.name Sample.abc) = false
  /\ (exists keep,
        orLogic asciiLower (q_or (searchRequest (js "a_c"))) = Some keep
        /\ keep Sample.abc = true)
  /\ List.map (fun r => Patient.id (patient r))
              (searchResults (handleSearch Sample.sampleStore (Sample.typed "a_c")))
     = [Patient.id Sample.abc].
Proof.
  repeat split; try reflexivity.
  eexists. split; [vm_compute; reflexivity | vm_compute; reflexivity].
Qed.

(** C8, as the code has it.  For a term that is not blank and holds none
    of the characters [%], [*], [_], backslash, comma and closing
    parenthesis, the component hands the store a request whose
    disjunction accepts a patient exactly when the uid, the phone or the
    name contains the term up to case folding. *)
Theorem plain_term_is_substring_match (fold : N -> N) (w : World) :
  blank (searchTerm w) = false ->
  plain (searchTerm w) = true ->
  exists rq keep,
    snd (handleSearch_start w) = Some rq
    /\ q_or rq = orFilter (searchTerm w)
    /\ orLogic fold (q_or rq) = Some keep
    /\ forall p, keep p = includesFolded fold (searchTerm w) (Patient.uid p)
                          || includesFolded fold (searchTerm w) (Patient.phone p)
                          || includesFolded fold (searchTerm w) (Patient.name p).
Proof.
  intros Hb Hp.
  destruct (orLogic_plain fold (searchTerm w) Hp) as (keep & Hk & Hkeep).
  exists (searchRequest (searchTerm w)), keep.
  apply trim_nonempty_iff in Hb.
  unfold handleSearch_start. rewrite Hb. simpl. auto.
Qed.

Lemma plain_term_is_substring_match_witness :
  exists rq keep,
    snd (handleSearch_start (Sample.typed "sMiTh")) = Some rq
    /\ orLogic asciiLower (q_or rq) = Some keep
    /\ keep Sample.bob = true.
Proof.
  destruct (plain_term_is_substring_match asciiLower (Sample.typed "sMiTh"))
    as (rq & keep & H1 & _ & H3 & H4); [reflexivity | reflexivity |].
  exists rq, keep. split; [exact H1|]. split; [exact H3|].
  rewrite H4. reflexivity.
Defined.

End PatientLookupProofs.

(** * Further properties of the queue widget *)

Module QueueWidgetMore.

Import QueueWidget WidgetView QueueWidgetProofs.

Local Open Scope Z_scope.

Lemma positionBlock_some (t : Z) (qs : QueueStatus) (pos : Z) (w : Q) :
  positionBlock (Some t) qs = Some (pos, w) ->
  t <> 0 /\ 0 < pos /\ pos = userPosition (Some t) qs /\ w = progressWidth qs t.
Proof.
  unfold positionBlock.
  destruct (truthy t) eqn:Ht; [|discriminate].
  destruct (0 <? userPosition (Some t) qs) eqn:Hp; [|discriminate].
  cbn [andb]. intros [= <- <-].
  apply truthy_true in Ht. apply Z.ltb_lt in Hp. auto.
Qed.

Lemma positionBlock_shown (t : Z) (qs : QueueStatus) :
  0 < t -> 0 < now_serving qs -> now_serving qs < t ->
  positionBlock (Some t) qs = Some (t - now_serving qs, progressWidth qs t).
Proof.
  intros Ht Hn Hlt. unfold positionBlock.
  rewrite userPosition_both_truthy by lia.
  assert (E : truthy t = true) by (apply truthy_true; lia).
  rewrite E. cbn [andb].
  replace (Z.max 0 (t - now_serving qs)) with (t - now_serving qs) by lia.
  assert (E2 : (0 <? t - now_serving qs) = true) by (apply Z.ltb_lt; lia).
  now rewrite E2.
Qed.

Lemma positionBlock_hidden (t : Z) (qs : QueueStatus) :
  userPosition (Some t) qs = 0 -> positionBlock (Some t) qs = None.
Proof.
  intro H. unfold positionBlock. rewrite H. now rewrite andb_false_r.
Qed.

(** X1.  Whatever the token, the counters and the loading flag, the
    widget never shows the position block and the turn banner together. *)
Theorem block_and_banner_exclusive (est : Z -> Z) (props : QueueWidgetProps)
        (loading : bool) (qs : QueueStatus) :
  ~ (shownPosition (render est props loading qs) <> None
     /\ shownTurn (render est props loading qs) = true).
Proof.
  intros [Hp Ht]. destruct loading; [discriminate Ht|].
  destruct (render_loaded est props qs) as [Ep Et].
  rewrite Ep in Hp. rewrite Et in Ht.
  destruct (userSTN props) as [t|]; [|discriminate Ht].
  destruct (positionBlock (Some t) qs) as [[pos w]|] eqn:E; [|now apply Hp].
  apply positionBlock_some in E. destruct E as (_ & Hpos & -> & _).
  unfold turnBanner in Ht.
  apply andb_true_iff in Ht. destruct Ht as [Ht _].
  apply andb_true_iff in Ht. destruct Ht as [_ Ht].
  apply Z.eqb_eq in Ht. lia.
Qed.

(** X2.  With a positive token and a positive counter the loaded widget
    shows exactly one of the two: the position block, holding
    [token - now_serving], while the counter is below the token, and the
    turn banner from the moment the counter reaches the token. *)
Theorem positive_counters_show_one (est : Z -> Z) (dept : option string)
        (t : Z) (qs : QueueStatus) :
  0 < t -> 0 < now_serving qs ->
  (now_serving qs < t ->
   shownPosition (render est (mkProps (Some t) dept) false qs)
   = Some (t - now_serving qs, progressWidth qs t)
   /\ shownTurn (render est (mkProps (Some t) dept) false qs) = false)
  /\ (t <= now_serving qs ->
      shownPosition (render est (mkProps (Some t) dept) false qs) = None
      /\ shownTurn (render est (mkProps (Some t) dept) false qs) = true).
Proof.
  intros Ht Hn.
  destruct (render_loaded est (mkProps (Some t) dept) qs) as [-> ->].
  cbn [userSTN]. split; intro H.
  - split; [now apply positionBlock_shown|].
    destruct (turnBanner (Some t) qs) eqn:E; [|reflexivity].
    apply turnBanner_true_iff in E; lia.
  - split.
    + apply positionBlock_hidden. rewrite userPosition_both_truthy by lia. lia.
    + apply turnBanner_true_iff; lia.
Qed.

Lemma positive_counters_show_one_witness :
  shownPosition (render (fun pos => pos * 5) (mkProps (Some 8) None) false
                        (mkQueueStatus 5 2))
  = Some (3, progressWidth (mkQueueStatus 5 2) 8)
  /\ shownTurn (render (fun pos => pos * 5) (mkProps (Some 8) None) false
                       (mkQueueStatus 8 2)) = true.
Proof.
  split.
  - apply (positive_counters_show_one (fun pos => pos * 5) None 8
             (mkQueueStatus 5 2)); simpl; lia.
  - apply (positive_counters_show_one (fun pos => pos * 5) None 8
             (mkQueueStatus 8 2)); simpl; lia.
Defined.

(** X3.  With a positive token and a counter of 0 the loaded widget shows
    neither the position block nor the turn banner, and the wait it shows
    beside the token is the estimate for position 0. *)
Theorem zero_counter_shows_neither (est : Z -> Z) (dept : option string)
        (t : Z) (qs : QueueStatus) :
  0 < t -> now_serving qs = 0 ->
  shownPosition (render est (mkProps (Some t) dept) false qs) = None
  /\ shownTurn (render est (mkProps (Some t) dept) false qs) = false
  /\ shownToken (render est (mkProps (Some t) dept) false qs) = Some (t, est 0).
Proof.
  intros Ht Hn.
  destruct (render_loaded est (mkProps (Some t) dept) qs) as [-> ->].
  cbn [userSTN]. split; [|split].
  - apply positionBlock_hidden. now apply userPosition_zero_counter.
  - destruct (turnBanner (Some t) qs) eqn:E; [|reflexivity].
    apply turnBanner_true_iff in E; lia.
  - unfold render, shownToken. cbn [userSTN].
    rewrite (userPosition_zero_counter t qs Hn).
    assert (E : truthy t = true) by (apply truthy_true; lia).
    now rewrite E.
Qed.

Lemma zero_counter_shows_neither_witness :
  shownPosition (render (fun pos => pos * 5) (mkProps (Some 8) None) false
                        (mkQueueStatus 0 4)) = None
  /\ shownTurn (render (fun pos => pos * 5) (mkProps (Some 8) None) false
                       (mkQueueStatus 0 4)) = false.
Proof.
  destruct (zero_counter_shows_neither (fun pos => pos * 5) None 8
              (mkQueueStatus 0 4)) as (H1 & H2 & _); [lia | reflexivity |].
  split; [exact H1 | exact H2].
Defined.





(** X5.  For a positive token, as a positive counter advances the
    position never grows and the width of the bar never shrinks. *)
Theorem counter_advance_monotone (t : Z) (qs qs' : QueueStatus) :
  0 < t -> 0 < now_serving qs -> now_serving qs <= now_serving qs' ->
  userPosition (Some t) qs' <= userPosition (Some t) qs
  /\ (progressWidth qs t <= progressWidth qs' t)%Q.
Proof.
  intros Ht Hn Hle. split.
  - rewrite !userPosition_both_truthy by lia. lia.
  - unfold progressWidth.
    apply Q.min_le_compat_l. apply Q.max_le_compat_l.
    apply Qmult_le_compat_r; [|discriminate].
    unfold Qdiv. apply Qmult_le_compat_r.
    + now rewrite <- Zle_Qle.
    + apply Qinv_le_0_compat. change 0%Q with (inject_Z 0).
      rewrite <- Zle_Qle. lia.
Qed.

Lemma counter_advance_monotone_witness :
  userPosition (Some 8) (mkQueueStatus 6 2) <= userPosition (Some 8) (mkQueueStatus 5 2).
Proof.
  apply (counter_advance_monotone 8 (mkQueueStatus 5 2) (mkQueueStatus 6 2));
    simpl; lia.
Defined.

(** X6.  In a loaded widget the wait shown beside the token is the
    estimate for the position the widget works with: under the turn
    banner it is the estimate for position 0, and beside a position block
    it is the estimate for the position the block shows; both come with
    the token cells. *)
Theorem shown_wait_matches_position (est : Z -> Z) (props : QueueWidgetProps)
        (qs : QueueStatus) :
  (shownTurn (render est props false qs) = true ->
   exists t, userSTN props = Some t
             /\ shownToken (render est props false qs) = Some (t, est 0))
  /\ (forall pos w,
        shownPosition (render est props false qs) = Some (pos, w) ->
        exists t, userSTN props = Some t
                  /\ shownToken (render est props false qs) = Some (t, est pos)).
Proof.
  destruct (render_loaded est props qs) as [Ep Et]. rewrite Ep, Et.
  unfold render, shownToken. cbn [negb].
  destruct (userSTN props) as [t|]; split; try discriminate.
  - intro H. exists t. split; [reflexivity|].
    unfold turnBanner in H.
    apply andb_true_iff in H. destruct H as [H _].
    apply andb_true_iff in H. destruct H as [Htt H0].
    apply Z.eqb_eq in H0. now rewrite Htt, H0.
  - intros pos w H. exists t. split; [reflexivity|].
    apply positionBlock_some in H. destruct H as (Htt & _ & -> & _).
    apply truthy_true in Htt. now rewrite Htt.
Qed.

End QueueWidgetMore.

(** * Further properties of the patient lookup *)

Module PatientLookupMore.

Import PatientLookup Store Statements MoreStatements LookupView.
Import PatientLookupProofs.

(** *** One search *)

Lemma handleSearch_keeps_term (store : Request -> Reply) (w : World) :
  searchTerm (handleSearch store w) = searchTerm w.
Proof.
  destruct (blank (searchTerm w)) eqn:Hb.
  - destruct (handleSearch_blank store w Hb) as [_ ->]. reflexivity.
  - rewrite handleSearch_nonblank by assumption.
    unfold handleSearch_resume, tryBlock.
    destruct (store (searchRequest (searchTerm w))) as [data [e|]|reason];
      try reflexivity.
    now destruct (List.length (shape data) =? 0)%nat.
Qed.


(** The values a reply makes [handleSearch] log. *)
Lemma console_after_resume (reply : Reply) (w : World) :
  console (handleSearch_resume reply w)
  = console w ++ match reply with
                 | Rejected reason => [reason]
                 | Resolved _ (Some patientsError) => [patientsError]
                 | Resolved _ None => []
                 end.
Proof.
  unfold handleSearch_resume, tryBlock.
  destruct reply as [data [e|]|reason]; try reflexivity.
  destruct (List.length (shape data) =? 0)%nat; simpl; now rewrite app_nil_r.
Qed.

Lemma issued_after_resume (reply : Reply) (w : World) :
  issued (handleSearch_resume reply w) = issued w
  /\ isLoading (handleSearch_resume reply w) = false
  /\ searchTerm (handleSearch_resume reply w) = searchTerm w.
Proof.
  unfold handleSearch_resume, tryBlock.
  destruct reply as [data [e|]|reason]; try (repeat split; reflexivity).
  destruct (List.length (shape data) =? 0)%nat; repeat split.
Qed.

(** X8.  A search on a term that is not blank hands the store exactly one
    request, built from the term as typed, whatever the answer: a failure
    is not retried.  It logs to the console exactly the error of a store
    that fails, and it ends with the loading flag down. *)
Theorem one_request_per_search (store : Request -> Reply) (w : World) :
  blank (searchTerm w) = false ->
  issued (handleSearch store w) = issued w ++ [searchRequest (searchTerm w)]
  /\ q_or (searchRequest (searchTerm w)) = orFilter (searchTerm w)
  /\ console (handleSearch store w)
     = console w ++ match store (searchRequest (searchTerm w)) with
                    | Rejected reason => [reason]
                    | Resolved _ (Some patientsError) => [patientsError]
                    | Resolved _ None => []
                    end
  /\ isLoading (handleSearch store w) = false.
Proof.
  intro Hb. rewrite handleSearch_nonblank by assumption.
  rewrite console_after_resume.
  destruct (issued_after_resume (store (searchRequest (searchTerm w)))
              (issue (searchRequest (searchTerm w))
                     (setError None (setIsLoading true w)))) as (-> & -> & _).
  repeat split.
Qed.

Lemma one_request_per_search_witness :
  List.length (issued (handleSearch Sample.downStore (Sample.showing "smith"))) = 1%nat
  /\ console (handleSearch Sample.downStore (Sample.showing "smith"))
     = ["Failed to fetch"%string].
Proof.
  destruct (one_request_per_search Sample.downStore (Sample.showing "smith"))
    as (H1 & _ & H3 & _); [reflexivity|].
  split; [rewrite H1; reflexivity | rewrite H3; reflexivity].
Defined.

(** X9.  Searching again with the term and the store unchanged leaves the
    four state cells as the first search left them. *)
Theorem search_idempotent (store : Request -> Reply) (w : World) :
  cells (handleSearch store (handleSearch store w)) = cells (handleSearch store w).
Proof.
  destruct (blank (searchTerm w)) eqn:Hb.
  - destruct (handleSearch_blank store w Hb) as [_ E]. rewrite E.
    assert (Hb' : blank (searchTerm (setError (Some msgEmpty) w)) = true) by exact Hb.
    destruct (handleSearch_blank store _ Hb') as [_ ->]. reflexivity.
  - assert (Hb' : blank (searchTerm (handleSearch store w)) = false)
      by now rewrite handleSearch_keeps_term.
    rewrite (handleSearch_nonblank store (handleSearch store w) Hb').
    rewrite handleSearch_keeps_term.
    rewrite (handleSearch_nonblank store w Hb).
    unfold handleSearch_resume, tryBlock, cells.
    destruct (store (searchRequest (searchTerm w))) as [data [e|]|reason];
      try reflexivity.
    now destruct (shape data).
Qed.

(** *** Sequences of events *)

Lemma engaged_hides_placeholder (w : World) :
  engaged w = true -> emptyState (render w) = false.
Proof.
  unfold engaged, render. cbn [emptyState].
  destruct (isLoading w); [intros _; now rewrite !andb_false_r|].
  destruct (searchResults w) as [|r rs]; [|reflexivity].
  destruct (truthyError (error w)); [intros _; now rewrite !andb_false_r|].
  discriminate.
Qed.

Lemma start_engages (w : World) : engaged (fst (handleSearch_start w)) = true.
Proof.
  unfold handleSearch_start, engaged.
  destruct (negb (truthyString (trim (searchTerm w)))); cbn.
  - now rewrite orb_true_r.
  - reflexivity.
Qed.

Lemma resume_engages (reply : Reply) (w : World) :
  engaged (handleSearch_resume reply w) = true.
Proof.
  unfold handleSearch_resume, tryBlock, engaged.
  destruct reply as [data [e|]|reason]; cbn; try now rewrite orb_true_r.
  destruct (shape data) as [|r rs]; reflexivity.
Qed.

Lemma react_keeps_engaged (e : Event) (w : World) :
  engaged w = true -> engaged (react e w) = true.
Proof.
  intro H. destruct e as [value|key| |reply]; cbn [react].
  - exact H.
  - unfold handleKeyPress_start.
    destruct (sameText key (js "Enter")); [apply start_engages | exact H].
  - apply start_engages.
  - apply resume_engages.
Qed.

Lemma react_search_engages (e : Event) (w : World) :
  startsSearch e = true -> engaged (react e w) = true.
Proof.
  destruct e as [value|key| |reply]; cbn [react startsSearch]; try discriminate.
  - intro H. unfold handleKeyPress_start. rewrite H. apply start_engages.
  - intros _. apply start_engages.
Qed.

Lemma run_keeps_engaged (es : list Event) (w : World) :
  engaged w = true -> engaged (run es w) = true.
Proof.
  revert w. induction es as [|e es IH]; intros w H; [exact H|].
  apply (IH (react e w)). now apply react_keeps_engaged.
Qed.

(** X10.  The placeholder "No patients found. Try a different search
    term." belongs to the time before the first search: once a click or
    the Enter key has called [handleSearch], no later typing, key, click
    or answer of the store brings a state in which it is shown; and in a
    fresh component it is shown as soon as the input is not empty. *)
Theorem placeholder_only_before_first_search
        (es : list Event) (w : World) (value : jsstring) :
  existsb startsSearch es = true ->
  emptyState (render (run es w)) = false
  /\ emptyState (render (run [Typing value] initial)) = truthyString value.
Proof.
  intro H. split.
  - apply engaged_hides_placeholder.
    revert w. induction es as [|e es IH]; intro w; [discriminate H|].
    cbn [existsb] in H. cbn [run fold_left].
    destruct (startsSearch e) eqn:E.
    + apply run_keeps_engaged. now apply react_search_engages.
    + apply (IH H (react e w)).
  - cbn. now destruct (truthyString value).
Qed.

Lemma placeholder_only_before_first_search_witness :
  emptyState (render (run [Typing (js "smith"); KeyDown (js "Enter");
                           Answer (Resolved (Some []) None);
                           Typing (js "smit")] initial)) = false
  /\ emptyState (render (run [Typing (js "smith")] initial)) = true.
Proof.
  apply (placeholder_only_before_first_search
           [Typing (js "smith"); KeyDown (js "Enter");
            Answer (Resolved (Some []) None); Typing (js "smit")]
           initial (js "smith")).
  reflexivity.
Defined.

Lemma start_nonblank (w : World) :
  blank (searchTerm w) = false ->
  handleSearch_start w
  = (issue (searchRequest (searchTerm w)) (setError None (setIsLoading true w)),
     Some (searchRequest (searchTerm w))).
Proof.
  intro H. apply trim_nonempty_iff in H.
  unfold handleSearch_start. now rewrite H.
Qed.

Lemma enter_starts (w : World) :
  react (KeyDown (js "Enter")) w = fst (handleSearch_start w).
Proof.
  reflexivity.
Qed.

(** X11.  The Enter key calls [handleSearch] even while a search is under
    way, and nothing cancels the earlier request.  With a first search
    under way, a new term typed and searched, the two requests are out
    together; the loading flag drops at the first answer to arrive; and
    when the answer to the first request arrives last, its rows replace
    the results, under an input that shows the second term. *)
Theorem stale_answer_overwrites (store : Request -> Reply) (w : World)
        (termB : jsstring) (dataA : option (list Patient.t)) :
  blank (searchTerm w) = false ->
  blank termB = false ->
  store (searchRequest (searchTerm w)) = Resolved dataA None ->
  let underWay :=
    run [KeyDown (js "Enter"); Typing termB; KeyDown (js "Enter")] w in
  let afterB := react (Answer (store (searchRequest termB))) underWay in
  let final := react (Answer (store (searchRequest (searchTerm w)))) afterB in
  isLoading underWay = true
  /\ issued underWay
     = issued w ++ [searchRequest (searchTerm w); searchRequest termB]
  /\ isLoading afterB = false
  /\ searchTerm final = termB
  /\ searchResults final = shape dataA.
Proof.
  intros Ha Hb Hs underWay afterB final.
  assert (Eu : underWay
               = issue (searchRequest termB)
                   (setError None (setIsLoading true
                      (setSearchTerm termB
                         (issue (searchRequest (searchTerm w))
                            (setError None (setIsLoading true w))))))).
  { unfold underWay. cbn [run fold_left]. rewrite !enter_starts.
    rewrite (start_nonblank w Ha). cbn [fst react].
    rewrite start_nonblank by exact Hb. reflexivity. }
  split; [now rewrite Eu|]. split.
  { rewrite Eu. cbn. now rewrite <- app_assoc. }
  destruct (issued_after_resume (store (searchRequest termB)) underWay)
    as (_ & Hl & Ht).
  split; [exact Hl|].
  unfold final. cbn [react]. rewrite Hs.
  destruct (issued_after_resume (Resolved dataA None) afterB) as (_ & _ & Ht').
  split.
  - rewrite Ht'. unfold afterB. cbn [react]. rewrite Ht. now rewrite Eu.
  - apply resume_succeeded.
Qed.

Lemma stale_answer_overwrites_witness :
  List.map (fun r => Patient.id (patient r))
    (searchResults
       (run [KeyDown (js "Enter"); Typing (js "zzz"); KeyDown (js "Enter");
             Answer (Sample.sampleStore (searchRequest (js "zzz")));
             Answer (Sample.sampleStore (searchRequest (js "smith")))]
            (Sample.typed "smith")))
  = [3%N; 1%N].
Proof.
  pose proof (stale_answer_overwrites Sample.sampleStore (Sample.typed "smith")
                (js "zzz")
                (Some (Store.orderBy Patient.created_at false
                         [withVisits Sample.abc (visitsOf Sample.abc);
                          withVisits Sample.cat (visitsOf Sample.cat)]))) as H.
  destruct H as (_ & _ & _ & _ & H); [reflexivity | reflexivity | |].
  - vm_compute. reflexivity.
  - cbn [run fold_left]. cbn [run fold_left] in H.
    change (searchTerm (Sample.typed "smith")) with (js "smith") in H.
    rewrite H. reflexivity.
Defined.

(** *** Searches against the store *)

(** X12.  Under the inner join and the status filter of the request,
    every result of a search that the store answers has a current visit,
    and that visit is waiting: each card shows its visit panel and the
    yellow badge reading [waiting]; the badge "No active visit" and the
    other two tones are not reached.  This holds however the store reads
    the disjunction. *)
Theorem store_results_badged_waiting
        (logic : jsstring -> option (Patient.t -> bool))
        (db : Table) (w : World) (data : option (list Patient.t)) :
  blank (searchTerm w) = false ->
  answer logic db (searchRequest (searchTerm w)) = Resolved data None ->
  forall r, In r (searchResults (handleSearch (answer logic db) w)) ->
    (exists v, currentVisit r = Some v /\ Visit.status v = waiting
               /\ visitPanel (card r) = Some (panel v))
    /\ badgeTone (card r) = yellow
    /\ badgeText (card r) = "waiting"%string.
Proof.
  intros Hb Hs r Hr.
  rewrite (search_succeeded _ w _ Hb Hs) in Hr.
  destruct (answer_rows logic db (searchTerm w) _ Hs) as (rows & -> & _ & Hrows).
  simpl in Hr. apply in_map_iff in Hr. destruct Hr as (row & <- & Hrow).
  destruct (Hrows row Hrow) as (p & _ & -> & v & Hv & Hw).
  unfold card, toResult. cbn [currentVisit patient withVisits Patient.visits].
  destruct (filter isWaiting (visitsOf p)) as [|v0 vs] eqn:E.
  - exfalso. assert (Hin : In v (filter isWaiting (visitsOf p))).
    { apply filter_In. split; [exact Hv | now apply isWaiting_true]. }
    rewrite E in Hin. exact Hin.
  - assert (Hin : In v0 (filter isWaiting (visitsOf p))) by (rewrite E; now left).
    apply filter_In in Hin. destruct Hin as [_ H0]. apply isWaiting_true in H0.
    cbn [nth_error option_map]. rewrite H0.
    split; [|split; reflexivity].
    exists v0. repeat split. exact H0.
Qed.

Lemma store_results_badged_waiting_witness :
  List.map (fun r => badgeText (card r))
    (searchResults (handleSearch Sample.sampleStore (Sample.typed "smith")))
  = ["waiting"; "waiting"]%string
  /\ Forall (fun r => badgeTone (card r) = yellow)
            (searchResults (handleSearch Sample.sampleStore (Sample.typed "smith"))).
Proof.
  split; [reflexivity|].
  apply Forall_forall. intros r Hr.
  eapply (store_results_badged_waiting (orLogic asciiLower) Sample.clinic
            (Sample.typed "smith")).
  - reflexivity.
  - vm_compute. reflexivity.
  - exact Hr.
Defined.

Section Wildcards.

Variable fold : N -> N.

Lemma wildcards_cons (c : N) (q : jsstring) :
  wildcardsOnly (c :: q) = true ->
  (c = 37 \/ c = 42)%N /\ wildcardsOnly q = true.
Proof.
  unfold wildcardsOnly. cbn [forallb]. rewrite andb_true_iff, orb_true_iff.
  rewrite !N.eqb_eq. tauto.
Qed.

Lemma wildcards_avoid (q : jsstring) (c : N) :
  wildcardsOnly q = true -> c <> 37%N -> c <> 42%N -> ~ In c q.
Proof.
  induction q as [|d q IH]; [tauto|].
  intros H H37 H42 [->|Hin].
  - apply wildcards_cons in H. destruct H as [[->| ->] _]; congruence.
  - apply wildcards_cons in H. now apply IH.
Qed.

Lemma wildcards_tokens (q rest : jsstring) (toks : list Token) :
  wildcardsOnly q = true ->
  tokens (starToPercent rest) = Some toks ->
  tokens (starToPercent (q ++ rest))
  = Some (List.map (fun _ => AnySeq) q ++ toks).
Proof.
  intros Hq Hrest. induction q as [|c q IH]; [exact Hrest|].
  apply wildcards_cons in Hq. destruct Hq as [Hc Hq].
  cbn [app starToPercent List.map]. fold (starToPercent (q ++ rest)).
  destruct Hc as [-> | ->]; cbn; now rewrite IH.
Qed.

Lemma like_all_any (n : nat) (p : list Token) (s : jsstring) :
  like fold p s = true ->
  like fold (repeat AnySeq n ++ p) s = true.
Proof.
  induction n as [|n IH]; [tauto|].
  intro H. cbn [repeat app]. rewrite like_star. now rewrite IH.
Qed.

Lemma ilike_wildcards (q : jsstring) :
  wildcardsOnly q = true ->
  exists m, ilike fold (37%N :: q ++ [37%N]) = Some m /\ forall s, m s = true.
Proof.
  intro Hq. unfold ilike.
  change (37%N :: q ++ [37%N]) with ([37%N] ++ q ++ [37%N]).
  rewrite (wildcards_tokens [37%N] (q ++ [37%N])
             (List.map (fun _ => AnySeq) q ++ [AnySeq])); [| reflexivity |].
  - eexists. split; [reflexivity|]. intro s.
    cbn [List.map app].
    replace (List.map (fun _ : N => AnySeq) q) with (repeat AnySeq (List.length q)).
    + rewrite like_star. rewrite like_all_any; [reflexivity|]. apply like_any.
    + induction q as [|c q IH]; [reflexivity|]. cbn.
      apply wildcards_cons in Hq. destruct Hq as [_ Hq]. now rewrite IH.
  - now apply (wildcards_tokens q [37%N] [AnySeq]).
Qed.

Lemma orLogic_wildcards (q : jsstring) :
  wildcardsOnly q = true ->
  exists keep, orLogic fold (orFilter q) = Some keep /\ forall p, keep p = true.
Proof.
  intro Hq.
  assert (H44 : ~ In 44%N q) by (apply wildcards_avoid; [assumption | |]; discriminate).
  assert (H41 : ~ In 41%N q) by (apply wildcards_avoid; [assumption | |]; discriminate).
  destruct (ilike_wildcards q Hq) as (m & Hm & Hall).
  unfold orLogic. rewrite (orFilter_no_paren q H41), (orFilter_segments fold q H44).
  unfold conditions, condition. cbn -[ilike like].
  rewrite Hm.
  eexists. split; [reflexivity|].
  intro p. cbn [existsb]. now rewrite Hall.
Qed.

Lemma wildcards_not_blank (q : jsstring) :
  q <> [] -> wildcardsOnly q = true -> blank q = false.
Proof.
  destruct q as [|c q]; [congruence|]. intros _ H.
  apply wildcards_cons in H. destruct H as [[-> | ->] _]; reflexivity.
Qed.

(** X13.  A term made only of the wildcards [%] and [*] passes the blank
    guard, and the disjunction sent for it accepts every patient: the
    search answers with the whole waiting queue, each patient of the
    table that has a waiting visit being among the results. *)
Theorem wildcard_term_returns_queue (db : Table) (w : World) :
  searchTerm w <> [] ->
  wildcardsOnly (searchTerm w) = true ->
  blank (searchTerm w) = false
  /\ (exists keep, orLogic fold (q_or (searchRequest (searchTerm w))) = Some keep
                   /\ forall p, keep p = true)
  /\ forall p v, In p db -> In v (visitsOf p) -> Visit.status v = waiting ->
       In (toResult (withVisits p (filter isWaiting (visitsOf p))))
          (searchResults (handleSearch (store fold db) w)).
Proof.
  intros Hne Hw.
  assert (Hb : blank (searchTerm w) = false) by now apply wildcards_not_blank.
  destruct (orLogic_wildcards (searchTerm w) Hw) as (keep & Hk & Hall).
  split; [exact Hb|]. split; [now exists keep|].
  intros p v Hp Hv Hwait.
  assert (Hs : store fold db (searchRequest (searchTerm w))
               = Resolved
                   (Some (orderBy Patient.created_at false
                            (filter hasVisits
                               (List.map (fun p => withVisits p
                                                    (filter isWaiting (visitsOf p)))
                                         (filter keep db)))))
                   None).
  { unfold store. rewrite answer_searchRequest. now rewrite Hk. }
  rewrite (search_succeeded _ w _ Hb Hs). cbn [shape].
  apply in_map. apply orderBy_In. apply filter_In. split.
  - apply in_map_iff. exists p. split; [reflexivity|].
    apply filter_In. split; [exact Hp | apply Hall].
  - unfold hasVisits. cbn [visitsOf withVisits Patient.visits].
    destruct (filter isWaiting (visitsOf p)) as [|v0 vs] eqn:E; [|reflexivity].
    assert (Hin : In v (filter isWaiting (visitsOf p))).
    { apply filter_In. split; [exact Hv | now apply isWaiting_true]. }
    rewrite E in Hin. destruct Hin.
Qed.

End Wildcards.

Lemma wildcard_term_returns_queue_witness :
  List.map (fun r => Patient.id (patient r))
    (searchResults (handleSearch Sample.sampleStore (Sample.typed "%")))
  = [3%N; 1%N]
  /\ blank (js "%") = false.
Proof.
  destruct (wildcard_term_returns_queue asciiLower Sample.clinic (Sample.typed "%"))
    as (H & _); [discriminate | reflexivity |].
  split; [reflexivity | exact H].
Defined.

(** *** What the user sees after a search *)



End PatientLookupMore.
